(** * The Ramayana chatbot's RAG pipeline (rag_chain.py)

    A shallow embedding of [rag_chain.py]: the language tables, the
    translation, retrieval and generation stages, the orchestrator [ask]
    and the two speech adapters; of the loader [seed] of
    [seed_knowledge_base.py]; and of the question form of [app.py];
    followed by the properties of the pipeline's public contract and of
    the code around it.

    Python values are an inductive type, Python [str] is a list of
    Unicode code points (so that [len] and slicing count characters),
    exceptions are values of a result type, and every call that leaves
    the process (HTTP, the passage store, the speech SDK) is answered by
    an environment and recorded in a trace. *)

From Stdlib Require Import ZArith Ascii String DecimalString.
From stdpp Require Import base option list gmap.

Local Open Scope Z_scope.

(** ** Python strings *)

Definition codepoint := N.
Definition pystr := list codepoint.
Definition bytes := list Byte.byte.

(** A string literal of the source (all of them but one dash are ASCII). *)
Definition lit (s : string) : pystr :=
  (fun a => N_of_ascii a) <$> list_ascii_of_string s.

(** U+2014, the dash of the two error messages. *)
Definition em_dash : pystr := [8212%N].

(** [str(n)] for an [int]. *)
Definition str_int (n : Z) : pystr := lit (NilZero.string_of_int (Z.to_int n)).

(** [len(s)] *)
Definition len {A} (s : list A) : Z := Z.of_nat (length s).

(** [s[:n]] for a literal [n >= 0]. *)
Definition slice_to {A} (n : Z) (s : list A) : list A := take (Z.to_nat n) s.

(** [sep.join(parts)] *)
Fixpoint join (sep : pystr) (parts : list pystr) : pystr :=
  match parts with
  | [] => []
  | [p] => p
  | p :: rest => p ++ sep ++ join sep rest
  end.

(** The characters [str.strip()] removes: those with [str.isspace()]. *)
Definition isspace (c : codepoint) : bool :=
  ((9 <=? c) && (c <=? 13) || (28 <=? c) && (c <=? 32)
   || (c =? 133) || (c =? 160) || (c =? 5760)
   || (8192 <=? c) && (c <=? 8202) || (c =? 8232) || (c =? 8233)
   || (c =? 8239) || (c =? 8287) || (c =? 12288))%N.

Fixpoint lstrip (s : pystr) : pystr :=
  match s with
  | c :: s' => if isspace c then lstrip s' else s
  | [] => []
  end.

Definition strip (s : pystr) : pystr := reverse (lstrip (reverse (lstrip s))).

(** [needle in haystack] *)
Definition contains (needle haystack : pystr) : Prop :=
  exists before after, haystack = before ++ needle ++ after.

(** ** Python values

    What [response.json()] and the passage store hand back: [None],
    booleans, numbers, strings, lists and dicts with string keys (in
    insertion order). *)

#[warnings="-register-all"]
Inductive pyval :=
| PNone
| PBool (b : bool)
| PInt (n : Z)
| PFloat (mantissa exponent : Z)
| PStr (s : pystr)
| PList (items : list pyval)
| PDict (entries : list (pystr * pyval)).

Definition type_name (v : pyval) : string :=
  match v with
  | PNone => "NoneType"
  | PBool _ => "bool"
  | PInt _ => "int"
  | PFloat _ _ => "float"
  | PStr _ => "str"
  | PList _ => "list"
  | PDict _ => "dict"
  end.

(** A dict as the code uses it: lookup by key, first entry wins. *)
Fixpoint assoc {V} (k : pystr) (d : list (pystr * V)) : option V :=
  match d with
  | [] => None
  | (k', v) :: d' => if decide (k = k') then Some v else assoc k d'
  end.

(** ** Exceptions *)

(** What [requests.post] returns. *)
Record response := {
  status_code : Z;
  reason : pystr;
  text : pystr;                (* response.text *)
  json_body : pyval + pystr    (* response.json(): the value, or the decoder's complaint *)
}.

(** The exceptions an [except Exception] clause catches. An [HTTPError]
    carries the response it was raised for, as [raise_for_status] builds
    it; every other exception is kept as its [str(e)]. *)
Inductive exn :=
| HTTPError (msg : pystr) (r : response)   (* requests.exceptions.HTTPError *)
| Exception (msg : pystr).                 (* every other Exception *)

(** [str(e)] *)
Definition str_exn (e : exn) : pystr :=
  match e with
  | HTTPError msg _ => msg
  | Exception msg => msg
  end.

Inductive result (A : Type) :=
| Ok (a : A)
| Raise (e : exn).
Arguments Ok {A} a.
Arguments Raise {A} e.

Definition KeyError {A} (key_repr : pystr) : result A := Raise (Exception key_repr).
Definition IndexError {A} (what : string) : result A :=
  Raise (Exception (lit (what ++ " index out of range"))).
Definition TypeError {A} (msg : string) : result A := Raise (Exception (lit msg)).
Definition AttributeError {A} (v : pyval) (attr : string) : result A :=
  Raise (Exception (lit ("'" ++ type_name v ++ "' object has no attribute '" ++ attr ++ "'"))).
Definition not_subscriptable {A} (v : pyval) : result A :=
  TypeError ("'" ++ type_name v ++ "' object is not subscriptable").

(** [v[key]] for a string key written in the source. *)
Definition getitem (v : pyval) (key : string) : result pyval :=
  match v with
  | PDict d =>
      match assoc (lit key) d with
      | Some x => Ok x
      | None => KeyError (lit ("'" ++ key ++ "'"))
      end
  | PList _ => TypeError "list indices must be integers or slices, not str"
  | PStr _ => TypeError "string indices must be integers, not 'str'"
  | _ => not_subscriptable v
  end.

(** [v[i]] for an index [i >= 0]. *)
Definition getitem_at (v : pyval) (i : nat) : result pyval :=
  match v with
  | PList l =>
      match l !! i with
      | Some x => Ok x
      | None => IndexError "list"
      end
  | PStr s =>
      match s !! i with
      | Some c => Ok (PStr [c])
      | None => IndexError "string"
      end
  | PDict _ => KeyError (str_int (Z.of_nat i))
  | _ => not_subscriptable v
  end.

(** [v.get(key, default)] *)
Definition py_get (v : pyval) (key : string) (dflt : pyval) : result pyval :=
  match v with
  | PDict d => Ok (default dflt (assoc (lit key) d))
  | _ => AttributeError v "get"
  end.

(** [v.strip()] *)
Definition py_strip (v : pyval) : result pystr :=
  match v with
  | PStr s => Ok (strip s)
  | _ => AttributeError v "strip"
  end.

(** The items a [for] loop over [v] visits. *)
Definition py_iter (v : pyval) : result (list pyval) :=
  match v with
  | PList l => Ok l
  | PStr s => Ok ((fun c => PStr [c]) <$> s)
  | PDict d => Ok ((fun kv => PStr kv.1) <$> d)
  | _ => TypeError ("'" ++ type_name v ++ "' object is not iterable")
  end.

(** ** The world outside the process

    Every call that leaves the process is recorded, in order, in a trace.
    The environment answers each call from the calls made so far and the
    call's arguments, so a service may answer the same request differently
    the second time. *)

Inductive post_body :=
| JsonBody (json : pyval)                                  (* json=payload *)
| Multipart (field filename : pystr) (content : bytes)     (* files=..., data=... *)
            (mime : pystr) (data : pyval).

Inductive call :=
| Post (url : pystr) (headers : pyval) (body : post_body)         (* requests.post *)
| OpenCollection (path name : pystr)                              (* PersistentClient + get_collection *)
| Query (query_texts : list pyval) (n_results : Z)                (* collection.query *)
| Convert (text target_language_code model speaker : pystr).      (* sarvam_client.text_to_speech.convert *)

Definition collection := N.

Record Env := {
  (* os.getenv of the key: a str, or None when the variable is unset *)
  SARVAM_API_KEY : pyval;
  (* str() of a float, a list or a dict, which no property here reads *)
  py_repr : pyval -> pystr;
  requests_post : list call -> pystr -> pyval -> post_body -> result response;
  open_collection : list call -> pystr -> pystr -> result collection;
  collection_query : list call -> collection -> list pyval -> Z -> result pyval;
  (* the call returns an object whose [audios] is a list of base64 strings *)
  tts_convert : list call -> pystr -> pystr -> pystr -> pystr -> result (list pystr);
  b64decode : pystr -> result bytes
}.

(** The process state: the trace of calls and the module global
    [_collection]. *)
Record state := {
  trace : list call;
  _collection : option collection
}.

Definition initial : state := {| trace := []; _collection := None |}.

(** ** Computations that may raise *)

Definition M (A : Type) : Type := state -> result A * state.

#[global] Instance M_ret : MRet M := fun A a s => (Ok a, s).
#[global] Instance M_bind : MBind M := fun A B f m s =>
  match m s with
  | (Ok a, s') => f a s'
  | (Raise e, s') => (Raise e, s')
  end.

(** A pure step that may raise. *)
Definition lift {A} (r : result A) : M A := fun s => (r, s).

(** [try: body  except Exception as e: handler(e)] *)
Definition try_except {A} (body : M A) (handler : exn -> M A) : M A := fun s =>
  match body s with
  | (Ok a, s') => (Ok a, s')
  | (Raise e, s') => handler e s'
  end.

(** Make a call: record it, then take the environment's answer. *)
Definition record (c : call) (s : state) : state :=
  {| trace := trace s ++ [c]; _collection := _collection s |}.

Definition perform {A} (c : call) (answer : list call -> result A) : M A := fun s =>
  (answer (trace s), record c s).

#[global] Instance result_ret : MRet result := fun A a => Ok a.
#[global] Instance result_bind : MBind result := fun A B f r =>
  match r with
  | Ok a => f a
  | Raise e => Raise e
  end.

(** ** requests *)

Definition nl : pystr := [10%N].

(** [response.raise_for_status()]: 4xx and 5xx raise, nothing else does. *)
Definition http_error_msg (kind : string) (url : pystr) (r : response) : pystr :=
  str_int (status_code r) ++ lit kind ++ reason r ++ lit " for url: " ++ url.

Definition raise_for_status (url : pystr) (r : response) : result unit :=
  if (400 <=? status_code r) && (status_code r <? 500) then
    Raise (HTTPError (http_error_msg " Client Error: " url r) r)
  else if (500 <=? status_code r) && (status_code r <? 600) then
    Raise (HTTPError (http_error_msg " Server Error: " url r) r)
  else Ok ().

(** [response.json()] *)
Definition json (r : response) : result pyval :=
  match json_body r with
  | inl v => Ok v
  | inr msg => Raise (Exception msg)
  end.

(** ** rag_chain.py: configuration *)

Definition DB_PATH : pystr := lit "./ramayana_db".
Definition COLLECTION : pystr := lit "ramayana_passages".

(** Supported languages: display name to Sarvam language code. *)
Definition LANGUAGE_CODES : gmap pystr pystr :=
  list_to_map [
    (lit "English",   lit "en-IN");
    (lit "Hindi",     lit "hi-IN");
    (lit "Tamil",     lit "ta-IN");
    (lit "Telugu",    lit "te-IN");
    (lit "Kannada",   lit "kn-IN");
    (lit "Malayalam", lit "ml-IN");
    (lit "Bengali",   lit "bn-IN");
    (lit "Marathi",   lit "mr-IN");
    (lit "Gujarati",  lit "gu-IN");
    (lit "Punjabi",   lit "pa-IN")
  ].

(** Language display name to a default Bulbul voice. *)
Definition TTS_VOICES : gmap pystr pystr :=
  list_to_map [
    (lit "English",   lit "shubh");
    (lit "Hindi",     lit "anushka");
    (lit "Tamil",     lit "abhilasha");
    (lit "Telugu",    lit "anushka");
    (lit "Kannada",   lit "anushka");
    (lit "Malayalam", lit "anushka");
    (lit "Bengali",   lit "anushka");
    (lit "Marathi",   lit "anushka");
    (lit "Gujarati",  lit "anushka");
    (lit "Punjabi",   lit "anushka")
  ].

(** [d.get(key, dflt)] on one of the two tables. *)
Definition dict_get (d : gmap pystr pystr) (key dflt : pystr) : pystr :=
  default dflt (d !! key).

(** ** rag_chain.py: results *)

(** One retrieved passage: the dict built by [retrieve_passages]. *)
Record passage := {
  p_text : pyval;
  kanda : pyval;
  topic : pyval;
  characters : pyval
}.

(** The dict [ask] returns. [answer] is whatever the last stage produced
    ([PNone] for None); [query_en] is [None] when the dict has no such key;
    [error] is [None] for None. *)
Module PipelineResult.
Record t := {
  answer : pyval;
  passages : list passage;
  language : pystr;
  query_en : option pyval;
  error : option pystr
}.
End PipelineResult.
Abbreviation pipeline_result := PipelineResult.t.

(** The dict [speech_to_text] returns. *)
Module TranscriptionResult.
Record t := {
  transcript : pyval;
  language_code : pyval;
  error : option pystr
}.
End TranscriptionResult.
Abbreviation transcription_result := TranscriptionResult.t.

(** The dict [text_to_speech] returns. *)
Module SynthesisResult.
Record t := {
  audio_bytes : option bytes;
  error : option pystr
}.
End SynthesisResult.
Abbreviation synthesis_result := SynthesisResult.t.

(** ** rag_chain.py: the pipeline *)

Definition en_IN : pystr := lit "en-IN".

(** [str(v)], as an f-string renders a value. *)
Definition py_str (repr : pyval -> pystr) (v : pyval) : pystr :=
  match v with
  | PStr s => s
  | PNone => lit "None"
  | PBool true => lit "True"
  | PBool false => lit "False"
  | PInt n => str_int n
  | _ => repr v
  end.

Section Pipeline.

Context (E : Env).

Definition json_headers : pyval :=
  PDict [(lit "api-subscription-key", SARVAM_API_KEY E);
         (lit "Content-Type", PStr (lit "application/json"))].

Definition post (url : pystr) (headers : pyval) (body : post_body) : M response :=
  perform (Post url headers body) (fun t => requests_post E t url headers body).

(** The lazily loaded passage store handle. *)
Definition get_collection : M collection := fun s =>
  match _collection s with
  | None =>
      match perform (OpenCollection DB_PATH COLLECTION)
                    (fun t => open_collection E t DB_PATH COLLECTION) s with
      | (Ok c, s') => (Ok c, {| trace := trace s'; _collection := Some c |})
      | (Raise e, s') => (Raise e, s')
      end
  | Some c => (Ok c, s)
  end.

(** Sarvam Translate. *)
Definition translate_url : pystr := lit "https://api.sarvam.ai/translate".

Definition translate_payload (text source_lang target_lang : pystr) : pyval :=
  PDict [(lit "input", PStr text);
         (lit "source_language_code", PStr source_lang);
         (lit "target_language_code", PStr target_lang);
         (lit "model", PStr (lit "mayura:v1"));
         (lit "mode", PStr (lit "formal"))].

Definition translate_text (text source_lang target_lang : pystr) : M pyval :=
  if decide (source_lang = target_lang) then mret (PStr text)
  else
    response ← post translate_url json_headers
                    (JsonBody (translate_payload text source_lang target_lang));
    lift (raise_for_status translate_url response);;
    body ← lift (json response);
    lift (py_get body "translated_text" (PStr text)).

(** ChromaDB retrieval: the loop over [enumerate(results["documents"][0])]. *)
Fixpoint collect_passages (results : pyval) (i : nat) (docs : list pyval)
    (acc : list passage) : result (list passage) :=
  match docs with
  | [] => Ok acc
  | doc :: rest =>
      metadatas ← getitem results "metadatas";
      first ← getitem_at metadatas 0;
      meta ← getitem_at first i;
      k ← py_get meta "kanda" (PStr []);
      t ← py_get meta "topic" (PStr []);
      c ← py_get meta "characters" (PStr []);
      collect_passages results (S i) rest
        (acc ++ [{| p_text := doc; kanda := k; topic := t; characters := c |}])
  end.

Definition retrieve_passages (query_en : pyval) (n_results : Z) : M (list passage) :=
  collection ← get_collection;
  results ← perform (Query [query_en] n_results)
                    (fun t => collection_query E t collection [query_en] n_results);
  lift (documents ← getitem results "documents";
        first ← getitem_at documents 0;
        docs ← py_iter first;
        collect_passages results 0 docs []).

(** Sarvam-M chat completion. *)
Definition context_part (i : Z) (p : passage) : pystr :=
  lit "[Passage " ++ str_int i ++ lit " " ++ em_dash ++ lit " "
    ++ py_str (py_repr E) (kanda p) ++ lit ", Topic: " ++ py_str (py_repr E) (topic p)
    ++ lit "]" ++ nl ++ py_str (py_repr E) (p_text p).

(** [enumerate(passages, start)] mapped to the context parts. *)
Fixpoint context_parts (start : Z) (passages : list passage) : list pystr :=
  match passages with
  | [] => []
  | p :: rest => context_part start p :: context_parts (start + 1) rest
  end.

Definition context_block (passages : list passage) : pystr :=
  join (nl ++ nl) (context_parts 1 passages).

Definition system_prompt : pystr :=
  lit "You are Valmiki, the sage-poet and author of the Ramayana. "
  ++ lit "You have deep knowledge of all events, characters, and teachings of the Ramayana. "
  ++ lit "Answer questions thoughtfully and accurately based on the provided context passages. "
  ++ lit "If the context does not contain enough information, draw on your knowledge of the Ramayana. "
  ++ lit "Keep answers concise (3-5 sentences) unless the question requires detail. "
  ++ lit "Always respond in English " ++ em_dash
  ++ lit " the response will be translated separately.".

Definition user_message (query_en : pyval) (passages : list passage) : pystr :=
  lit "Context from the Ramayana:" ++ nl ++ nl ++ context_block passages ++ nl ++ nl
  ++ lit "Question: " ++ py_str (py_repr E) query_en ++ nl ++ nl
  ++ lit "Answer as Valmiki the sage:".

Definition chat_url : pystr := lit "https://api.sarvam.ai/v1/chat/completions".

Definition chat_payload (query_en : pyval) (passages : list passage) : pyval :=
  PDict [(lit "model", PStr (lit "sarvam-m"));
         (lit "messages",
          PList [PDict [(lit "role", PStr (lit "system"));
                        (lit "content", PStr system_prompt)];
                 PDict [(lit "role", PStr (lit "user"));
                        (lit "content", PStr (user_message query_en passages))]]);
         (lit "max_tokens", PInt 512)].

Definition generate_answer (query_en : pyval) (passages : list passage) : M pystr :=
  response ← post chat_url json_headers (JsonBody (chat_payload query_en passages));
  lift (raise_for_status chat_url response);;
  lift (body ← json response;
        choices ← getitem body "choices";
        choice ← getitem_at choices 0;
        message ← getitem choice "message";
        content ← getitem message "content";
        py_strip content).

(** The two result dicts of [ask]. *)
Definition success (answer : pyval) (passages : list passage) (language : pystr)
    (query_en : pyval) : pipeline_result :=
  {| PipelineResult.answer := answer;
     PipelineResult.passages := passages;
     PipelineResult.language := language;
     PipelineResult.query_en := Some query_en;
     PipelineResult.error := None |}.

Definition failure (language error_msg : pystr) : pipeline_result :=
  {| PipelineResult.answer := PNone;
     PipelineResult.passages := [];
     PipelineResult.language := language;
     PipelineResult.query_en := None;
     PipelineResult.error := Some error_msg |}.

Definition api_error (prefix : string) (r : response) : pystr :=
  lit prefix ++ str_int (status_code r) ++ lit " " ++ em_dash ++ lit " " ++ text r.

(** Step 1 and step 4 of [ask]: translation happens only when the user's
    language is not English. *)
Definition query_to_english (query lang_code : pystr) : M pyval :=
  if decide (lang_code ≠ en_IN)
  then translate_text query lang_code en_IN
  else mret (PStr query).

Definition answer_to_user (answer_en lang_code : pystr) : M pyval :=
  if decide (lang_code ≠ en_IN)
  then translate_text answer_en en_IN lang_code
  else mret (PStr answer_en).

(** The body of the [try] block of [ask]. *)
Definition ask_try (query language lang_code : pystr) : M pipeline_result :=
  query_en ← query_to_english query lang_code;
  passages ← retrieve_passages query_en 3;
  answer_en ← generate_answer query_en passages;
  answer ← answer_to_user answer_en lang_code;
  mret (success answer passages language query_en).

(** The two [except] clauses of [ask]. *)
Definition ask_except (language : pystr) (e : exn) : M pipeline_result :=
  match e with
  | HTTPError _ r => mret (failure language (api_error "API error: " r))
  | Exception _ => mret (failure language (str_exn e))
  end.

Definition ask (query language : pystr) : M pipeline_result :=
  let lang_code := dict_get LANGUAGE_CODES language en_IN in
  try_except (ask_try query language lang_code) (ask_except language).

(** Speech-to-text (Saarika v2.5). *)
Definition stt_url : pystr := lit "https://api.sarvam.ai/speech-to-text".

Definition stt_failure (lang_code error_msg : pystr) : transcription_result :=
  {| TranscriptionResult.transcript := PStr [];
     TranscriptionResult.language_code := PStr lang_code;
     TranscriptionResult.error := Some error_msg |}.

Definition speech_to_text (audio_bytes : bytes) (language : pystr)
    : M transcription_result :=
  let lang_code := dict_get LANGUAGE_CODES language en_IN in
  try_except
    (let headers := PDict [(lit "api-subscription-key", SARVAM_API_KEY E)] in
     let data := PDict [(lit "model", PStr (lit "saarika:v2.5"));
                        (lit "language_code", PStr lang_code)] in
     response ← post stt_url headers
                     (Multipart (lit "file") (lit "audio.wav") audio_bytes
                                (lit "audio/wav") data);
     lift (raise_for_status stt_url response);;
     result ← lift (json response);
     t ← lift (py_get result "transcript" (PStr []));
     c ← lift (py_get result "language_code" (PStr lang_code));
     mret {| TranscriptionResult.transcript := t;
             TranscriptionResult.language_code := c;
             TranscriptionResult.error := None |})
    (fun e =>
       match e with
       | HTTPError _ r => mret (stt_failure lang_code (api_error "STT error: " r))
       | Exception _ => mret (stt_failure lang_code (str_exn e))
       end).

(** Text-to-speech (Bulbul v3). *)

(** The text handed to the service: Bulbul's limit is 2500 characters. *)
Definition tts_text (text : pystr) : pystr :=
  if 2500 <? len text then slice_to 2490 text ++ lit "..." else text.

Definition text_to_speech (text language : pystr) : M synthesis_result :=
  let lang_code := dict_get LANGUAGE_CODES language en_IN in
  let speaker := dict_get TTS_VOICES language (lit "shubh") in
  let text := tts_text text in
  try_except
    (audios ← perform (Convert text lang_code (lit "bulbul:v3") speaker)
                      (fun t => tts_convert E t text lang_code (lit "bulbul:v3") speaker);
     audio_base64 ← lift (match audios with
                          | a :: _ => Ok a
                          | [] => IndexError "list"
                          end);
     decoded ← lift (b64decode E audio_base64);
     mret {| SynthesisResult.audio_bytes := Some decoded;
             SynthesisResult.error := None |})
    (fun e => mret {| SynthesisResult.audio_bytes := None;
                      SynthesisResult.error := Some (str_exn e) |}).

End Pipeline.

(** ** rag_chain.py: [text_to_speech] as the page calls it

    The page hands [text_to_speech] a turn's answer, which is the answer
    of [ask], and [ask] passes on whatever the Translation Service put
    under ["translated_text"]. The text is then a string or, among others,
    a value without a length: None, a boolean or a number. *)
Inductive spoken :=
| SStr (s : pystr)
| SNone
| SBool (b : bool)
| SInt (n : Z)
| SFloat (mantissa exponent : Z).

Definition spoken_value (text : spoken) : pyval :=
  match text with
  | SStr s => PStr s
  | SNone => PNone
  | SBool b => PBool b
  | SInt n => PInt n
  | SFloat m e => PFloat m e
  end.

(** [len(text)] stands before the [try]: on a value without a length it
    raises a TypeError that no handler of [text_to_speech] catches. *)
Definition text_to_speech_value (E : Env) (text : spoken) (language : pystr)
    : M synthesis_result :=
  match text with
  | SStr s => text_to_speech E s language
  | _ =>
      lift (TypeError ("object of type '" ++ type_name (spoken_value text)
                       ++ "' has no len()"))
  end.

(** ** seed_knowledge_base.py

    The one-time loader: reads the passages file and fills the store. Its
    calls (the file system, chromadb, the console) are recorded in a trace
    of their own, and answered by an environment as above. *)

(** [len(v)] *)
Definition py_len (v : pyval) : result Z :=
  match v with
  | PList l => Ok (len l)
  | PStr s => Ok (len s)
  | PDict d => Ok (len d)
  | _ => TypeError ("object of type '" ++ type_name v ++ "' has no len()")
  end.

(** [v[:n]] for a literal [n >= 0]; slicing a dict raises (a TypeError
    before Python 3.12, a KeyError since). *)
Definition py_slice_to (n : Z) (v : pyval) : result pyval :=
  match v with
  | PStr s => Ok (PStr (slice_to n s))
  | PList l => Ok (PList (slice_to n l))
  | PDict _ => TypeError "unhashable type: 'slice'"
  | _ => not_subscriptable v
  end.

(** The items of [sep.join(...)], which must all be strings. *)
Fixpoint join_items (i : nat) (items : list pyval) : result (list pystr) :=
  match items with
  | [] => Ok []
  | PStr s :: rest => parts ← join_items (S i) rest; Ok (s :: parts)
  | v :: _ =>
      Raise (Exception (lit "sequence item " ++ str_int (Z.of_nat i)
                        ++ lit ": expected str instance, " ++ lit (type_name v)
                        ++ lit " found"))
  end.

(** [sep.join(v)] *)
Definition py_join (sep : pystr) (v : pyval) : result pyval :=
  match v with
  | PList _ | PStr _ | PDict _ =>
      items ← py_iter v; parts ← join_items 0 items; Ok (PStr (join sep parts))
  | _ => TypeError "can only join an iterable"
  end.

(** [[f(p) for p in items]] *)
Fixpoint comprehension {A B} (f : A -> result B) (items : list A) : result (list B) :=
  match items with
  | [] => Ok []
  | p :: rest => y ← f p; ys ← comprehension f rest; Ok (y :: ys)
  end.

Definition DATA_FILE : pystr := lit "data/passages.json".

Inductive seed_call :=
| PathExists (path : pystr)                               (* os.path.exists *)
| LoadJson (path : pystr)                                 (* open + json.load *)
| Print (line : pystr)                                    (* print *)
| PersistentClient (path : pystr)                         (* chromadb.PersistentClient *)
| ListCollections                                         (* client.list_collections *)
| DeleteCollection (name : pystr)                         (* client.delete_collection *)
| CreateCollection (name : pystr) (metadata : pyval)      (* client.create_collection *)
| Add (documents metadatas ids : list pyval)              (* collection.add *)
| SanityQuery (query_texts : list pyval) (n_results : Z). (* collection.query *)

Record SeedEnv := {
  (* str() of a float, a list or a dict *)
  seed_repr : pyval -> pystr;
  path_exists : list seed_call -> pystr -> bool;
  load_json : list seed_call -> pystr -> result pyval;
  persistent_client : list seed_call -> pystr -> result unit;
  (* the names of the collections the client lists *)
  list_collections : list seed_call -> result (list pystr);
  delete_collection : list seed_call -> pystr -> result unit;
  create_collection : list seed_call -> pystr -> pyval -> result unit;
  collection_add : list seed_call -> list pyval -> list pyval -> list pyval -> result unit;
  sanity_query : list seed_call -> list pyval -> Z -> result pyval
}.

Definition Seeding (A : Type) : Type := list seed_call -> result A * list seed_call.

#[global] Instance Seeding_ret : MRet Seeding := fun A a t => (Ok a, t).
#[global] Instance Seeding_bind : MBind Seeding := fun A B f m t =>
  match m t with
  | (Ok a, t') => f a t'
  | (Raise e, t') => (Raise e, t')
  end.

Definition seed_lift {A} (r : result A) : Seeding A := fun t => (r, t).

Definition seed_do {A} (c : seed_call) (answer : list seed_call -> result A) : Seeding A :=
  fun t => (answer t, t ++ [c]).

Definition say (line : pystr) : Seeding unit := seed_do (Print line) (fun _ => Ok ()).

(** The metadata [seed] stores for one record of the file. *)
Definition seed_metadata (p : pyval) : result pyval :=
  k ← getitem p "kanda";
  cs ← getitem p "characters";
  c ← py_join (lit ", ") cs;
  t ← getitem p "topic";
  i ← getitem p "id";
  Ok (PDict [(lit "kanda", k); (lit "characters", c); (lit "topic", t); (lit "id", i)]).

(** The three arguments of [collection.add], built in the order written. *)
Definition seed_add_args (passages : pyval)
    : result (list pyval * list pyval * list pyval) :=
  documents ← (ps ← py_iter passages; comprehension (fun p => getitem p "text") ps);
  metadatas ← (ps ← py_iter passages; comprehension seed_metadata ps);
  ids ← (ps ← py_iter passages; comprehension (fun p => getitem p "id") ps);
  Ok (documents, metadatas, ids).

Definition box_rule : pystr := [9472; 9472]%N.     (* two U+2500 *)
Definition arrow : pystr := [8594%N].              (* U+2192 *)

Section Seed.

Context (E : SeedEnv).

(** The loop over [results["documents"][0]] of the sanity check. *)
Fixpoint print_docs (docs : list pyval) : Seeding unit :=
  match docs with
  | [] => mret ()
  | doc :: rest =>
      head ← seed_lift (py_slice_to 100 doc);
      say (lit "  " ++ arrow ++ lit " " ++ py_str (seed_repr E) head ++ lit "...");;
      print_docs rest
  end.

Definition seed : Seeding unit :=
  (* 1. Load passages *)
  found ← seed_do (PathExists DATA_FILE) (fun t => Ok (path_exists E t DATA_FILE));
  if negb found then
    say (lit "ERROR: " ++ DATA_FILE
         ++ lit " not found. Make sure you're in the project root.")
  else
    passages ← seed_do (LoadJson DATA_FILE) (fun t => load_json E t DATA_FILE);
    n ← seed_lift (py_len passages);
    say (lit "Loaded " ++ str_int n ++ lit " passages from " ++ DATA_FILE);;
    (* 2. Connect to ChromaDB *)
    seed_do (PersistentClient DB_PATH) (fun t => persistent_client E t DB_PATH);;
    (* 3. Delete existing collection if re-seeding *)
    existing ← seed_do ListCollections (list_collections E);
    (if decide (COLLECTION ∈ existing) then
       seed_do (DeleteCollection COLLECTION) (fun t => delete_collection E t COLLECTION);;
       say (lit "Deleted existing collection: " ++ COLLECTION)
     else mret ());;
    (* 4. Create fresh collection *)
    let metadata := PDict [(lit "hnsw:space", PStr (lit "cosine"))] in
    seed_do (CreateCollection COLLECTION metadata)
            (fun t => create_collection E t COLLECTION metadata);;
    say (lit "Created collection: " ++ COLLECTION);;
    (* 5. Add all passages *)
    args ← seed_lift (seed_add_args passages);
    let '(documents, metadatas, ids) := args in
    seed_do (Add documents metadatas ids)
            (fun t => collection_add E t documents metadatas ids);;
    n' ← seed_lift (py_len passages);
    say (nl ++ lit "Successfully seeded " ++ str_int n' ++ lit " passages into ChromaDB!");;
    say (lit "   Database saved at: " ++ DB_PATH);;
    say (nl ++ lit "You can now run the app with: streamlit run app.py");;
    (* 6. Quick sanity check query *)
    say (nl ++ box_rule ++ lit " Sanity check query: 'Who is Hanuman?' " ++ box_rule);;
    let question := [PStr (lit "Who is Hanuman?")] in
    results ← seed_do (SanityQuery question 2) (fun t => sanity_query E t question 2);
    docs ← seed_lift (documents ← getitem results "documents";
                      first ← getitem_at documents 0;
                      py_iter first);
    print_docs docs.

End Seed.

(** ** app.py: the question form

    The last block of the page script: what a submission of the text form
    does to the chat history. *)

(** One entry of [st.session_state.chat_history]. *)
Module Turn.
Record t := {
  query : pystr;
  answer : pyval;
  passages : list passage;
  language : pystr
}.
End Turn.
Abbreviation turn := Turn.t.

(** What the page shows or does at the end of the block. *)
Inductive notice :=
| StError (msg : pystr)       (* st.error *)
| StWarning (msg : pystr)     (* st.warning *)
| StRerun.                    (* st.rerun *)

(** The truth value of a string, and of a string or None. *)
Definition nonempty (s : pystr) : bool :=
  match s with
  | [] => false
  | _ :: _ => true
  end.

Definition truthy (o : option pystr) : bool :=
  match o with
  | Some s => nonempty s
  | None => false
  end.

Definition warning_sign : pystr := [9888; 65039]%N.   (* U+26A0 U+FE0F *)

Section App.

Context (E : Env).

Definition chat_form_submit (submitted : bool) (user_query language : pystr)
    (chat_history : list turn) : M (list turn * option notice) :=
  if submitted && nonempty (strip user_query) then
    result ← ask E (strip user_query) language;
    if truthy (PipelineResult.error result) then
      mret (chat_history,
            Some (StError (warning_sign ++ lit " Error: "
                           ++ default (lit "None") (PipelineResult.error result))))
    else
      mret (chat_history
              ++ [{| Turn.query := strip user_query;
                     Turn.answer := PipelineResult.answer result;
                     Turn.passages := PipelineResult.passages result;
                     Turn.language := PipelineResult.language result |}],
            Some StRerun)
  else if submitted && negb (nonempty (strip user_query)) then
    mret (chat_history, Some (StWarning (lit "Please enter a question first.")))
  else mret (chat_history, None).

End App.

(** ** Vocabulary of the properties *)

(** The display names of the language table. *)
Definition display_names : list pystr :=
  [lit "English"; lit "Hindi"; lit "Tamil"; lit "Telugu"; lit "Kannada";
   lit "Malayalam"; lit "Bengali"; lit "Marathi"; lit "Gujarati"; lit "Punjabi"].

(** What [ask] reports for an exception caught by its [except] clauses. *)
Definition error_message (e : exn) : pystr :=
  match e with
  | HTTPError _ r => api_error "API error: " r
  | Exception msg => msg
  end.

(** The first stage of [ask] that raises, the exception it raises and the
    state it leaves behind. *)
Inductive stage_fails (E : Env) (query lang_code : pystr) (s : state)
    (e : exn) (s_fail : state) : Prop :=
| query_translation_fails :
    query_to_english E query lang_code s = (Raise e, s_fail) ->
    stage_fails E query lang_code s e s_fail
| retrieval_fails q_en s1 :
    query_to_english E query lang_code s = (Ok q_en, s1) ->
    retrieve_passages E q_en 3 s1 = (Raise e, s_fail) ->
    stage_fails E query lang_code s e s_fail
| generation_fails q_en s1 ps s2 :
    query_to_english E query lang_code s = (Ok q_en, s1) ->
    retrieve_passages E q_en 3 s1 = (Ok ps, s2) ->
    generate_answer E q_en ps s2 = (Raise e, s_fail) ->
    stage_fails E query lang_code s e s_fail
| back_translation_fails q_en s1 ps s2 answer_en s3 :
    query_to_english E query lang_code s = (Ok q_en, s1) ->
    retrieve_passages E q_en 3 s1 = (Ok ps, s2) ->
    generate_answer E q_en ps s2 = (Ok answer_en, s3) ->
    answer_to_user E answer_en lang_code s3 = (Raise e, s_fail) ->
    stage_fails E query lang_code s e s_fail.

(** [emits P m]: whatever the state, [m] only adds calls to the trace, and
    every call it adds satisfies [P]. *)
Definition emits {A} (P : call -> Prop) (m : M A) : Prop :=
  forall s, exists calls, trace (m s).2 = trace s ++ calls /\ Forall P calls.

(** [starts_with c m]: the first thing [m] does is the call [c]. *)
Definition starts_with {A} (c : call) (m : M A) : Prop :=
  forall s, exists calls, trace (m s).2 = trace s ++ c :: calls.

(** A call to the Translation Service. *)
Definition is_translation (c : call) : Prop :=
  exists headers body, c = Post translate_url headers body.

(** Exactly one of [answer] and [error] is set, and the one that is set is
    a string. *)
Definition exactly_one (r : pipeline_result) : Prop :=
  (exists a, PipelineResult.answer r = PStr a /\ PipelineResult.error r = None)
  \/ (PipelineResult.answer r = PNone /\ exists m, PipelineResult.error r = Some m).

(** The Translation Service keeps to its schema: a [translated_text] field,
    when the answer has one, holds a string. *)
Definition translation_gives_text (E : Env) : Prop :=
  forall t headers body r d v,
    requests_post E t translate_url headers body = Ok r ->
    json_body r = inl (PDict d) ->
    assoc (lit "translated_text") d = Some v ->
    exists a, v = PStr a.

(** ** Sample environments *)

Module Sample.

Definition ok_response (body : pyval) : response :=
  {| status_code := 200; reason := lit "OK"; text := []; json_body := inl body |}.

Definition error_response (code : Z) (body : pystr) : response :=
  {| status_code := code; reason := lit "Internal Server Error"; text := body;
     json_body := inr (lit "Expecting value: line 1 column 1 (char 0)") |}.

(** A chat completion carrying [content]. *)
Definition completion (content : pyval) : pyval :=
  PDict [(lit "choices",
          PList [PDict [(lit "message", PDict [(lit "role", PStr (lit "assistant"));
                                               (lit "content", content)])]])].

(** A store answer with the given documents, each tagged with a section
    and a topic. *)
Definition store_answer (docs : list pystr) : pyval :=
  PDict [(lit "ids", PList [PList []]);
         (lit "documents", PList [PList (PStr <$> docs)]);
         (lit "metadatas",
          PList [PList ((fun _ => PDict [(lit "kanda", PStr (lit "Sundara Kanda"));
                                         (lit "topic", PStr (lit "Hanuman"))]) <$> docs)])].

(** An environment whose translation and generation services always give
    the same two answers and whose store always returns [docs]. *)
Definition world (translation generation : result response) (docs : list pystr)
    : Env :=
  {| SARVAM_API_KEY := PStr (lit "key");
     py_repr := fun _ => lit "?";
     requests_post := fun _ url _ _ =>
       if decide (url = translate_url) then translation else generation;
     open_collection := fun _ _ _ => Ok 1%N;
     collection_query := fun _ _ _ _ => Ok (store_answer docs);
     tts_convert := fun _ _ _ _ _ => Ok [lit "UklGRg=="];
     b64decode := fun _ => Ok [] |}.

Definition hanuman : pystr := lit "Who is Hanuman?".
Definition reply : pystr := lit " Hanuman is the son of Vayu. ".

(** All services healthy. *)
Definition healthy : Env :=
  world (Ok (ok_response (PDict [(lit "translated_text", PStr (lit "translated"))])))
        (Ok (ok_response (completion (PStr reply))))
        [lit "Hanuman leapt across the ocean."].

(** The passage store finds nothing. *)
Definition empty_store : Env :=
  world (Ok (ok_response (PDict [(lit "translated_text", PStr (lit "translated"))])))
        (Ok (ok_response (completion (PStr reply))))
        [].

(** The generation service answers HTTP 500. *)
Definition generation_down : Env :=
  world (Ok (ok_response (PDict [(lit "translated_text", PStr (lit "translated"))])))
        (Ok (error_response 500 (lit "upstream overloaded")))
        [lit "Hanuman leapt across the ocean."].

(** The translation service answers HTTP 500. *)
Definition translation_down : Env :=
  world (Ok (error_response 500 (lit "upstream overloaded")))
        (Ok (ok_response (completion (PStr reply))))
        [lit "Hanuman leapt across the ocean."].

(** "Ram kaun hai?" in Devanagari. *)
Definition ram_kaun_hai : pystr :=
  [2352; 2366; 2350; 32; 2325; 2380; 2344; 32; 2361; 2376; 63]%N.

(** The translation service translates the query, its first request, and
    answers every later request with 200 and a null [translated_text]. *)
Definition null_back_translation : Env :=
  {| SARVAM_API_KEY := PStr (lit "key");
     py_repr := fun _ => lit "?";
     requests_post := fun t url _ _ =>
       if decide (url = translate_url) then
         match t with
         | [] => Ok (ok_response (PDict [(lit "translated_text", PStr (lit "Who is Ram?"))]))
         | _ => Ok (ok_response (PDict [(lit "translated_text", PNone)]))
         end
       else Ok (ok_response (completion (PStr reply)));
     open_collection := fun _ _ _ => Ok 1%N;
     collection_query := fun _ _ _ _ =>
       Ok (store_answer [lit "Rama is the prince of Ayodhya."]);
     tts_convert := fun _ _ _ _ _ => Ok [lit "UklGRg=="];
     b64decode := fun _ => Ok [] |}.

End Sample.

(** ** Further vocabulary *)

Definition is_dict (v : pyval) : Prop := exists d, v = PDict d.

(** [meta.get(key, "")] for a metadata dict. *)
Definition meta_field (meta : pyval) (key : string) : pyval :=
  match meta with
  | PDict d => default (PStr []) (assoc (lit key) d)
  | _ => PStr []
  end.

(** The passage [retrieve_passages] builds from a document and its
    metadata. *)
Definition passage_of (doc meta : pyval) : passage :=
  {| p_text := doc;
     kanda := meta_field meta "kanda";
     topic := meta_field meta "topic";
     characters := meta_field meta "characters" |}.

(** A 200 answer of the chat completion endpoint that keeps to its schema
    and carries [content]. *)
Definition answers_with (r : response) (content : pystr) : Prop :=
  raise_for_status chat_url r = Ok ()
  /\ exists body choices choice rest message,
      json r = Ok body
      /\ getitem body "choices" = Ok choices
      /\ choices = PList (choice :: rest)
      /\ getitem choice "message" = Ok message
      /\ getitem message "content" = Ok (PStr content).

(** No whitespace at either end. *)
Definition trimmed (a : pystr) : Prop :=
  (forall c rest, a = c :: rest -> isspace c = false)
  /\ (forall front c, a = front ++ [c] -> isspace c = false).

(** A result of [ask] with another name under ["language"]. *)
Definition with_language (language : pystr) (r : pipeline_result) : pipeline_result :=
  {| PipelineResult.answer := PipelineResult.answer r;
     PipelineResult.passages := PipelineResult.passages r;
     PipelineResult.language := language;
     PipelineResult.query_en := PipelineResult.query_en r;
     PipelineResult.error := PipelineResult.error r |}.

(** A record of the passages file, as the loader expects it. *)
Record seed_record := {
  r_id : pyval;
  r_text : pyval;
  r_kanda : pyval;
  r_topic : pyval;
  r_characters : list pystr
}.

(** [p] is a JSON object that holds the five fields of [r] (in any order,
    possibly among others). *)
Definition describes (p : pyval) (r : seed_record) : Prop :=
  exists d,
    p = PDict d
    /\ assoc (lit "id") d = Some (r_id r)
    /\ assoc (lit "text") d = Some (r_text r)
    /\ assoc (lit "kanda") d = Some (r_kanda r)
    /\ assoc (lit "topic") d = Some (r_topic r)
    /\ assoc (lit "characters") d = Some (PList (PStr <$> r_characters r)).

(** The metadata stored for a record, and the passage read back from it. *)
Definition metadata_of (r : seed_record) : pyval :=
  PDict [(lit "kanda", r_kanda r);
         (lit "characters", PStr (join (lit ", ") (r_characters r)));
         (lit "topic", r_topic r);
         (lit "id", r_id r)].

Definition passage_of_record (r : seed_record) : passage :=
  {| p_text := r_text r;
     kanda := r_kanda r;
     topic := r_topic r;
     characters := PStr (join (lit ", ") (r_characters r)) |}.

(** The calls of [seed] up to the fresh collection: the file is read, the
    client made, the collections listed, an existing collection deleted,
    the collection created. *)
Definition seed_prelude (n : Z) (existing : list pystr) : list seed_call :=
  [PathExists DATA_FILE;
   LoadJson DATA_FILE;
   Print (lit "Loaded " ++ str_int n ++ lit " passages from " ++ DATA_FILE);
   PersistentClient DB_PATH;
   ListCollections]
  ++ (if decide (COLLECTION ∈ existing)
      then [DeleteCollection COLLECTION;
            Print (lit "Deleted existing collection: " ++ COLLECTION)]
      else [])
  ++ [CreateCollection COLLECTION (PDict [(lit "hnsw:space", PStr (lit "cosine"))]);
      Print (lit "Created collection: " ++ COLLECTION)].

(** The calls of [seed] from [collection.add] on. *)
Definition seed_finale (n : Z) (documents metadatas ids : list pyval)
    (found : list pystr) : list seed_call :=
  [Add documents metadatas ids;
   Print (nl ++ lit "Successfully seeded " ++ str_int n ++ lit " passages into ChromaDB!");
   Print (lit "   Database saved at: " ++ DB_PATH);
   Print (nl ++ lit "You can now run the app with: streamlit run app.py");
   Print (nl ++ box_rule ++ lit " Sanity check query: 'Who is Hanuman?' " ++ box_rule);
   SanityQuery [PStr (lit "Who is Hanuman?")] 2]
  ++ ((fun doc => Print (lit "  " ++ arrow ++ lit " " ++ take 100 doc ++ lit "...")) <$> found).

(** An environment in which the file is there and every call succeeds. *)
Definition seeding_succeeds (E : SeedEnv) (passages : pyval) (existing : list pystr)
    (results : pyval) : Prop :=
  (forall t, path_exists E t DATA_FILE = true)
  /\ (forall t, load_json E t DATA_FILE = Ok passages)
  /\ (forall t, persistent_client E t DB_PATH = Ok ())
  /\ (forall t, list_collections E t = Ok existing)
  /\ (forall t, delete_collection E t COLLECTION = Ok ())
  /\ (forall t metadata, create_collection E t COLLECTION metadata = Ok ())
  /\ (forall t documents metadatas ids,
        collection_add E t documents metadatas ids = Ok ())
  /\ (forall t texts n, sanity_query E t texts n = Ok results).

(** [keeps_store c m]: started with the store handle [c] set, [m] leaves
    it set and never opens the store. *)
Definition opens_store (k : call) : Prop := exists path name, k = OpenCollection path name.

Definition keeps_store {A} (c : collection) (m : M A) : Prop :=
  forall s,
    _collection s = Some c ->
    _collection (m s).2 = Some c
    /\ exists calls, trace (m s).2 = trace s ++ calls
                     /\ Forall (fun k => ¬ opens_store k) calls.

(** ** Further environments *)

Module Demo.

(** An environment given by what each service answers, whatever the
    request. *)
Definition env (post : pystr -> result response) (opening : result collection)
    (query : result pyval) (convert : result (list pystr))
    (decode : result bytes) : Env :=
  {| SARVAM_API_KEY := PStr (lit "key");
     py_repr := fun _ => lit "?";
     requests_post := fun _ url _ _ => post url;
     open_collection := fun _ _ _ => opening;
     collection_query := fun _ _ _ _ => query;
     tts_convert := fun _ _ _ _ _ => convert;
     b64decode := fun _ => decode |}.

Definition fine (body : pyval) : result response := Ok (Sample.ok_response body).

Definition chat_fine : pystr -> result response :=
  fun _ => fine (Sample.completion (PStr Sample.reply)).

(** The store directory holds no collection of that name. *)
Definition no_store : Env :=
  env chat_fine
      (Raise (Exception (lit "Collection ramayana_passages does not exist.")))
      (Ok (Sample.store_answer [])) (Ok []) (Ok []).

(** The store answers with two documents and a single metadata entry. *)
Definition short_metadata : Env :=
  env chat_fine (Ok 1%N)
      (Ok (PDict [(lit "documents", PList [PList [PStr (lit "a"); PStr (lit "b")]]);
                  (lit "metadatas", PList [PList [PDict []]])]))
      (Ok []) (Ok []).

(** The store answers with five documents, the first without a topic. *)
Definition five_documents : Env :=
  env chat_fine (Ok 1%N)
      (Ok (PDict [(lit "documents",
                   PList [PList (PStr <$> [lit "a"; lit "b"; lit "c"; lit "d"; lit "e"])]);
                  (lit "metadatas",
                   PList [PList (PDict [(lit "kanda", PStr (lit "Bala Kanda"))]
                                 :: replicate 4 (PDict [(lit "topic", PStr (lit "exile"))]))])]))
      (Ok []) (Ok []).

(** Every endpoint answers 200 with an object that names neither choices
    nor a translation. *)
Definition off_schema : Env :=
  env (fun _ => fine (PDict [(lit "request_id", PStr (lit "42"))]))
      (Ok 1%N) (Ok (Sample.store_answer [])) (Ok []) (Ok []).

(** Every endpoint answers HTTP 503. *)
Definition busy : Env :=
  env (fun _ => Ok (Sample.error_response 503 (lit "busy")))
      (Ok 1%N) (Ok (Sample.store_answer [])) (Ok []) (Ok []).

(** Two records of the passages file. *)
Definition hanuman_record : seed_record :=
  {| r_id := PStr (lit "sundara_001");
     r_text := PStr (lit "Hanuman leapt across the ocean.");
     r_kanda := PStr (lit "Sundara Kanda");
     r_topic := PStr (lit "Hanuman");
     r_characters := [lit "Hanuman"; lit "Sita"] |}.

Definition record_json (r : seed_record) : pyval :=
  PDict [(lit "id", r_id r); (lit "text", r_text r); (lit "kanda", r_kanda r);
         (lit "topic", r_topic r);
         (lit "characters", PList (PStr <$> r_characters r))].

(** A seeding environment: is the file there, what it holds, and which
    collections the store has; every store call succeeds. *)
Definition seeding (there : bool) (file : pyval) (existing : list pystr) : SeedEnv :=
  {| seed_repr := fun _ => lit "?";
     path_exists := fun _ _ => there;
     load_json := fun _ _ => Ok file;
     persistent_client := fun _ _ => Ok ();
     list_collections := fun _ => Ok existing;
     delete_collection := fun _ _ => Ok ();
     create_collection := fun _ _ _ => Ok ();
     collection_add := fun _ _ _ _ => Ok ();
     sanity_query := fun _ _ _ =>
       Ok (PDict [(lit "documents",
                   PList [PList [PStr (lit "Hanuman leapt across the ocean.")]])]) |}.

(** The store answers with what [seed] stored for [hanuman_record]. *)
Definition seeded_store : Env :=
  env chat_fine (Ok 1%N)
      (Ok (PDict [(lit "documents", PList [PList [r_text hanuman_record]]);
                  (lit "metadatas", PList [PList [metadata_of hanuman_record]])]))
      (Ok []) (Ok []).

(** The store raises an exception that has no text. *)
Definition silent_store : Env :=
  env chat_fine (Ok 1%N) (Raise (Exception [])) (Ok []) (Ok []).

(** The Translation Service answers 200 with a number under
    ["translated_text"]. *)
Definition number_translation : Env :=
  env (fun url => if decide (url = translate_url)
                  then fine (PDict [(lit "translated_text", PInt 7)])
                  else chat_fine url)
      (Ok 1%N) (Ok (Sample.store_answer [])) (Ok []) (Ok []).

End Demo.

(** ** Sample runs *)

Example str_int_500 : str_int 500 = lit "500".
Proof. reflexivity. Qed.

Example str_int_0 : str_int 0 = lit "0".
Proof. reflexivity. Qed.

Example codes_hindi : dict_get LANGUAGE_CODES (lit "Hindi") (lit "en-IN") = lit "hi-IN".
Proof. vm_compute. reflexivity. Qed.

Example codes_unknown : dict_get LANGUAGE_CODES (lit "Klingon") (lit "en-IN") = lit "en-IN".
Proof. vm_compute. reflexivity. Qed.

Example strip_example : strip (lit "  Rama " ++ [9%N; 10%N]) = lit "Rama".
Proof. vm_compute. reflexivity. Qed.

Example ask_english_healthy :
  (ask Sample.healthy Sample.hanuman (lit "English") initial).1
  = Ok (success (PStr (lit "Hanuman is the son of Vayu."))
                [{| p_text := PStr (lit "Hanuman leapt across the ocean.");
                    kanda := PStr (lit "Sundara Kanda");
                    topic := PStr (lit "Hanuman");
                    characters := PStr [] |}]
                (lit "English") (PStr Sample.hanuman)).
Proof. vm_compute. reflexivity. Qed.

Example ask_hindi_healthy :
  (ask Sample.healthy Sample.hanuman (lit "Hindi") initial).1
  = Ok (success (PStr (lit "translated"))
                [{| p_text := PStr (lit "Hanuman leapt across the ocean.");
                    kanda := PStr (lit "Sundara Kanda");
                    topic := PStr (lit "Hanuman");
                    characters := PStr [] |}]
                (lit "Hindi") (PStr (lit "translated"))).
Proof. vm_compute. reflexivity. Qed.

Example ask_generation_down :
  (ask Sample.generation_down Sample.hanuman (lit "English") initial).1
  = Ok (failure (lit "English")
          (lit "API error: 500 " ++ em_dash ++ lit " upstream overloaded")).
Proof. vm_compute. reflexivity. Qed.

(** ** Running computations *)

Section Running.

Context {A B : Type}.

Lemma bind_ok (m : M A) (f : A -> M B) s a s' :
  m s = (Ok a, s') -> (m ≫= f) s = f a s'.
Proof. intros H. unfold mbind, M_bind. now rewrite H. Qed.

Lemma bind_raise (m : M A) (f : A -> M B) s e s' :
  m s = (Raise e, s') -> (m ≫= f) s = (Raise e, s').
Proof. intros H. unfold mbind, M_bind. now rewrite H. Qed.

Lemma bind_inv_ok (m : M A) (f : A -> M B) s b s'' :
  (m ≫= f) s = (Ok b, s'') ->
  exists a s', m s = (Ok a, s') /\ f a s' = (Ok b, s'').
Proof.
  unfold mbind, M_bind. destruct (m s) as [[a|e] s'] eqn:Hm; intros H.
  - now exists a, s'.
  - discriminate.
Qed.

Lemma try_except_ok (body : M A) handler s a s' :
  body s = (Ok a, s') -> try_except body handler s = (Ok a, s').
Proof. intros H. unfold try_except. now rewrite H. Qed.

Lemma try_except_raise (body : M A) handler s e s' :
  body s = (Raise e, s') -> try_except body handler s = handler e s'.
Proof. intros H. unfold try_except. now rewrite H. Qed.

(** A [try] whose handler returns never lets an exception out. *)
Lemma try_except_returns (body : M A) handler s :
  (forall e s', exists a, handler e s' = (Ok a, s')) ->
  exists a s', try_except body handler s = (Ok a, s').
Proof.
  intros Hh. unfold try_except. destruct (body s) as [[a|e] s'].
  - now exists a, s'.
  - destruct (Hh e s') as [a Ha]. exists a, s'. exact Ha.
Qed.

End Running.

Lemma ask_except_failure language e s :
  ask_except language e s = (Ok (failure language (error_message e)), s).
Proof. now destruct e. Qed.

(** A successful run of the [try] block went through all four stages. *)
Lemma ask_try_ok E query language lang_code s r s4 :
  ask_try E query language lang_code s = (Ok r, s4) ->
  exists q_en s1 ps s2 answer_en s3 ans,
    query_to_english E query lang_code s = (Ok q_en, s1)
    /\ retrieve_passages E q_en 3 s1 = (Ok ps, s2)
    /\ generate_answer E q_en ps s2 = (Ok answer_en, s3)
    /\ answer_to_user E answer_en lang_code s3 = (Ok ans, s4)
    /\ r = success ans ps language q_en.
Proof.
  unfold ask_try. intros H.
  apply bind_inv_ok in H as (q_en & s1 & H1 & H).
  apply bind_inv_ok in H as (ps & s2 & H2 & H).
  apply bind_inv_ok in H as (answer_en & s3 & H3 & H).
  apply bind_inv_ok in H as (ans & s4' & H4 & H).
  injection H as <- <-.
  now exists q_en, s1, ps, s2, answer_en, s3, ans.
Qed.

(** [ask] always returns one of its two dicts. *)
Lemma ask_cases E query language s :
  let lang_code := dict_get LANGUAGE_CODES language en_IN in
  (exists ans ps q_en s',
      ask_try E query language lang_code s = (Ok (success ans ps language q_en), s')
      /\ ask E query language s = (Ok (success ans ps language q_en), s'))
  \/ (exists e s',
      ask_try E query language lang_code s = (Raise e, s')
      /\ ask E query language s = (Ok (failure language (error_message e)), s')).
Proof.
  intros lang_code. unfold ask. fold lang_code.
  destruct (ask_try E query language lang_code s) as [[r|e] s'] eqn:Htry.
  - left. destruct (ask_try_ok _ _ _ _ _ _ _ Htry)
      as (q_en & _ & ps & _ & _ & _ & ans & _ & _ & _ & _ & ->).
    exists ans, ps, q_en, s'. split; [reflexivity|].
    now apply try_except_ok.
  - right. exists e, s'. split; [reflexivity|].
    erewrite try_except_raise by exact Htry. apply ask_except_failure.
Qed.

(** ** Properties *)

(** C3. When the source and the target language are the same,
    [translate_text] returns its input text unchanged and makes no call:
    the state, and with it the trace of calls, is the one it started from. *)
Theorem translate_text_same_language E (text source_lang target_lang : pystr) s :
  source_lang = target_lang ->
  translate_text E text source_lang target_lang s = (Ok (PStr text), s)
  /\ trace (translate_text E text source_lang target_lang s).2 = trace s.
Proof.
  intros ->. unfold translate_text.
  destruct (decide (target_lang = target_lang)) as [_|Hne]; [|contradiction].
  split; reflexivity.
Qed.

Lemma translate_text_same_language_witness :
  translate_text Sample.healthy Sample.hanuman (lit "hi-IN") (lit "hi-IN") initial
    = (Ok (PStr Sample.hanuman), initial)
  /\ trace (translate_text Sample.healthy Sample.hanuman (lit "hi-IN") (lit "hi-IN")
              initial).2 = trace initial.
Proof. apply translate_text_same_language. reflexivity. Defined.

(** [text_to_speech] makes exactly one call, the synthesis request, and it
    carries the text as cut by [tts_text]. *)
Lemma text_to_speech_call E text language s :
  trace (text_to_speech E text language s).2
  = trace s ++ [Convert (tts_text text) (dict_get LANGUAGE_CODES language en_IN)
                        (lit "bulbul:v3") (dict_get TTS_VOICES language (lit "shubh"))].
Proof.
  unfold text_to_speech, try_except, mbind, M_bind, perform, lift, mret, M_ret.
  destruct (tts_convert E _ _ _ _ _) as [[|a audios]|e]; cbn [snd]; try reflexivity.
  destruct (b64decode E a); reflexivity.
Qed.

Lemma len_marker : len (lit "...") = 3.
Proof. reflexivity. Qed.

Lemma len_truncated (text : pystr) :
  2500 < len text -> len (slice_to 2490 text ++ lit "...") = 2493.
Proof.
  unfold len, slice_to. intros H.
  rewrite length_app, length_take.
  change (length (lit "...")) with 3%nat. lia.
Qed.

Lemma tts_text_short text : len text <= 2500 -> tts_text text = text.
Proof.
  intros H. unfold tts_text.
  destruct (2500 <? len text) eqn:Hlt; [|reflexivity].
  apply Z.ltb_lt in Hlt. lia.
Qed.

Lemma tts_text_long text :
  2500 < len text -> tts_text text = slice_to 2490 text ++ lit "...".
Proof.
  intros H. unfold tts_text.
  destruct (2500 <? len text) eqn:Hlt; [reflexivity|].
  apply Z.ltb_ge in Hlt. lia.
Qed.

(** C5. [text_to_speech] hands the Synthesis Service a text of at most 2500
    characters as it is, and a longer one as its first 2490 characters
    followed by the three-character marker ["..."]; the cut is made before
    the one call to the service. *)
Theorem text_to_speech_truncates E (text language : pystr) s :
  exists submitted lang_code speaker,
    trace (text_to_speech E text language s).2
      = trace s ++ [Convert submitted lang_code (lit "bulbul:v3") speaker]
    /\ (len text <= 2500 -> submitted = text)
    /\ (2500 < len text ->
        submitted = take 2490 text ++ lit "..." /\ len (lit "...") = 3).
Proof.
  exists (tts_text text), (dict_get LANGUAGE_CODES language en_IN),
         (dict_get TTS_VOICES language (lit "shubh")).
  split; [apply text_to_speech_call|]. split.
  - apply tts_text_short.
  - intros H. split; [|apply len_marker].
    rewrite (tts_text_long _ H). unfold slice_to.
    now replace (Z.to_nat 2490) with 2490%nat by lia.
Qed.

(** C10. The text [text_to_speech] submits is never longer than 2500
    characters, and a text that was cut is exactly 2493 characters long. *)
Theorem text_to_speech_within_limit E (text language : pystr) s :
  exists submitted lang_code speaker,
    trace (text_to_speech E text language s).2
      = trace s ++ [Convert submitted lang_code (lit "bulbul:v3") speaker]
    /\ len submitted <= 2500
    /\ (2500 < len text -> len submitted = 2493).
Proof.
  exists (tts_text text), (dict_get LANGUAGE_CODES language en_IN),
         (dict_get TTS_VOICES language (lit "shubh")).
  split; [apply text_to_speech_call|].
  destruct (Z.le_gt_cases (len text) 2500) as [Hshort|Hlong].
  - rewrite (tts_text_short _ Hshort). split; [exact Hshort|lia].
  - rewrite (tts_text_long _ Hlong), (len_truncated _ Hlong). split; [lia|reflexivity].
Qed.

Lemma text_to_speech_truncates_witness :
  (exists submitted lang_code speaker,
      trace (text_to_speech Sample.healthy (lit "Jai Shri Ram") (lit "Hindi") initial).2
        = trace initial ++ [Convert submitted lang_code (lit "bulbul:v3") speaker]
      /\ submitted = lit "Jai Shri Ram")
  /\ (exists submitted lang_code speaker,
      trace (text_to_speech Sample.healthy (replicate 2501 82%N) (lit "Hindi") initial).2
        = trace initial ++ [Convert submitted lang_code (lit "bulbul:v3") speaker]
      /\ submitted = take 2490 (replicate 2501 82%N) ++ lit "...").
Proof.
  split.
  - destruct (text_to_speech_truncates Sample.healthy (lit "Jai Shri Ram") (lit "Hindi")
                initial) as (submitted & lang_code & speaker & Htrace & Hshort & _).
    exists submitted, lang_code, speaker. split; [exact Htrace|].
    apply Hshort. vm_compute. discriminate.
  - destruct (text_to_speech_truncates Sample.healthy (replicate 2501 82%N) (lit "Hindi")
                initial) as (submitted & lang_code & speaker & Htrace & _ & Hlong).
    exists submitted, lang_code, speaker. split; [exact Htrace|].
    apply Hlong. vm_compute. reflexivity.
Defined.

Lemma text_to_speech_within_limit_witness :
  exists submitted lang_code speaker,
    trace (text_to_speech Sample.healthy (replicate 2501 82%N) (lit "Hindi") initial).2
      = trace initial ++ [Convert submitted lang_code (lit "bulbul:v3") speaker]
    /\ len submitted <= 2500
    /\ len submitted = 2493.
Proof.
  destruct (text_to_speech_within_limit Sample.healthy (replicate 2501 82%N) (lit "Hindi")
              initial) as (submitted & lang_code & speaker & Htrace & Hle & Hcut).
  exists submitted, lang_code, speaker. split; [exact Htrace|]. split; [exact Hle|].
  apply Hcut. vm_compute. reflexivity.
Defined.

(** C9. On the success path and on every error path, the dict [ask] returns
    carries in [language] the argument it was given, not the language code;
    this holds for every string, recognised or not. *)
Theorem ask_language_field E (query language : pystr) s :
  exists r s',
    ask E query language s = (Ok r, s') /\ PipelineResult.language r = language.
Proof.
  destruct (ask_cases E query language s)
    as [(ans & ps & q_en & s' & _ & Hask)|(e & s' & _ & Hask)];
    rewrite Hask; eauto.
Qed.

(** A failing stage ends the [try] block on the spot. *)
Lemma stage_fails_ask_try E query language lang_code s e s_fail :
  stage_fails E query lang_code s e s_fail ->
  ask_try E query language lang_code s = (Raise e, s_fail).
Proof.
  unfold ask_try. intros [H1|q_en s1 H1 H2|q_en s1 ps s2 H1 H2 H3
                          |q_en s1 ps s2 answer_en s3 H1 H2 H3 H4].
  - now apply bind_raise.
  - rewrite (bind_ok _ _ _ _ _ H1). now apply bind_raise.
  - rewrite (bind_ok _ _ _ _ _ H1), (bind_ok _ _ _ _ _ H2). now apply bind_raise.
  - rewrite (bind_ok _ _ _ _ _ H1), (bind_ok _ _ _ _ _ H2), (bind_ok _ _ _ _ _ H3).
    now apply bind_raise.
Qed.

(** Conversely the [try] block raises only because some stage did. *)
Lemma ask_try_stage_fails E query language lang_code s e s_fail :
  ask_try E query language lang_code s = (Raise e, s_fail) ->
  stage_fails E query lang_code s e s_fail.
Proof.
  unfold ask_try, mbind, M_bind.
  destruct (query_to_english E query lang_code s) as [[q_en|e1] s1] eqn:H1.
  2: { intros [= <- <-]. now apply query_translation_fails. }
  destruct (retrieve_passages E q_en 3 s1) as [[ps|e2] s2] eqn:H2.
  2: { intros [= <- <-]. now apply retrieval_fails with q_en s1. }
  destruct (generate_answer E q_en ps s2) as [[answer_en|e3] s3] eqn:H3.
  2: { intros [= <- <-]. now apply generation_fails with q_en s1 ps s2. }
  destruct (answer_to_user E answer_en lang_code s3) as [[ans|e4] s4] eqn:H4.
  2: { intros [= <- <-]. now apply back_translation_fails with q_en s1 ps s2 answer_en s3. }
  discriminate.
Qed.

Lemma contains_middle (before needle after : pystr) :
  contains needle (before ++ needle ++ after).
Proof. now exists before, after. Qed.

Lemma api_error_contains prefix r :
  contains (str_int (status_code r)) (api_error prefix r)
  /\ contains (text r) (api_error prefix r).
Proof.
  unfold api_error. split.
  - apply contains_middle.
  - exists (lit prefix ++ str_int (status_code r) ++ lit " " ++ em_dash ++ lit " "), [].
    now rewrite app_nil_r, <- !app_assoc.
Qed.

(** C2. When a stage of [ask] raises, be it the translation of the query,
    the retrieval, the generation or the translation of the answer, [ask]
    stops in the state that stage left (no later stage makes a call) and
    returns answer None, no passages and an error message. For an HTTP
    error the message contains the status code and the response body; for
    any other exception it is the exception's own text. *)
Theorem ask_stage_failure E (query language : pystr) s e s_fail :
  stage_fails E query (dict_get LANGUAGE_CODES language en_IN) s e s_fail ->
  exists r msg,
    ask E query language s = (Ok r, s_fail)
    /\ PipelineResult.answer r = PNone
    /\ PipelineResult.passages r = []
    /\ PipelineResult.error r = Some msg
    /\ (forall m resp, e = HTTPError m resp ->
          contains (str_int (status_code resp)) msg /\ contains (text resp) msg)
    /\ (forall m, e = Exception m -> msg = m).
Proof.
  intros Hfail.
  apply stage_fails_ask_try with (language := language) in Hfail.
  exists (failure language (error_message e)), (error_message e).
  split.
  - unfold ask. erewrite try_except_raise by exact Hfail. apply ask_except_failure.
  - do 3 (split; [reflexivity|]). split.
    + intros m resp ->. apply api_error_contains.
    + intros m ->. reflexivity.
Qed.

Lemma ask_stage_failure_witness :
  exists r msg s_fail,
    ask Sample.generation_down Sample.hanuman (lit "English") initial = (Ok r, s_fail)
    /\ PipelineResult.answer r = PNone
    /\ PipelineResult.passages r = []
    /\ PipelineResult.error r = Some msg
    /\ contains (lit "500") msg
    /\ contains (lit "upstream overloaded") msg.
Proof.
  pose (down := Sample.error_response 500 (lit "upstream overloaded")).
  pose (e := HTTPError (http_error_msg " Server Error: " chat_url down) down).
  pose (s_fail := (ask Sample.generation_down Sample.hanuman (lit "English") initial).2).
  destruct (ask_stage_failure Sample.generation_down Sample.hanuman (lit "English")
              initial e s_fail) as (r & msg & Hask & Ha & Hp & He & Hhttp & _).
  - eapply generation_fails; vm_compute; reflexivity.
  - exists r, msg, s_fail. repeat split; try assumption.
    + exact (proj1 (Hhttp _ _ eq_refl)).
    + exact (proj2 (Hhttp _ _ eq_refl)).
Defined.

(** ** The calls a computation makes *)

Section Emits.

Context {A B : Type} (P : call -> Prop).

Lemma emits_ret (a : A) : emits P (mret a).
Proof. intros s. exists []. split; [now rewrite app_nil_r|constructor]. Qed.

Lemma emits_lift (r : result A) : emits P (lift r).
Proof. intros s. exists []. split; [now rewrite app_nil_r|constructor]. Qed.

Lemma emits_perform c (answer : list call -> result A) :
  P c -> emits P (perform c answer).
Proof. intros Hc s. exists [c]. split; [reflexivity|]. now repeat constructor. Qed.

Lemma emits_bind (m : M A) (f : A -> M B) :
  emits P m -> (forall a, emits P (f a)) -> emits P (m ≫= f).
Proof.
  intros Hm Hf s. unfold mbind, M_bind.
  destruct (Hm s) as (calls & Htrace & Hcalls).
  destruct (m s) as [[a|e] s1]; cbn [snd] in *.
  - destruct (Hf a s1) as (calls' & Htrace' & Hcalls').
    exists (calls ++ calls'). split.
    + now rewrite Htrace', Htrace, app_assoc.
    + now apply Forall_app.
  - now exists calls.
Qed.


End Emits.

Lemma chat_is_not_translation headers body :
  ¬ is_translation (Post chat_url headers body).
Proof. intros (h & b & H). injection H as H _ _. vm_compute in H. discriminate. Qed.

Lemma get_collection_emits E : emits (fun c => ¬ is_translation c) (get_collection E).
Proof.
  intros s. unfold get_collection, perform.
  destruct (_collection s).
  - exists []. split; [now rewrite app_nil_r|constructor].
  - exists [OpenCollection DB_PATH COLLECTION].
    split; [now destruct (open_collection E _ _ _)|].
    repeat constructor. intros (h & b & H). discriminate.
Qed.

Lemma retrieve_passages_emits E query_en n :
  emits (fun c => ¬ is_translation c) (retrieve_passages E query_en n).
Proof.
  unfold retrieve_passages.
  apply emits_bind; [apply get_collection_emits|intros c].
  apply emits_bind; [|intros results; apply emits_lift].
  apply emits_perform. intros (h & b & H). discriminate.
Qed.

Lemma generate_answer_emits E query_en ps :
  emits (fun c => ¬ is_translation c) (generate_answer E query_en ps).
Proof.
  unfold generate_answer, post.
  apply emits_bind; [|intros r; apply emits_bind; [|intros _]; apply emits_lift].
  apply emits_perform, chat_is_not_translation.
Qed.


Lemma emits_weaken {A} (P Q : call -> Prop) (m : M A) :
  (forall c, P c -> Q c) -> emits P m -> emits Q m.
Proof.
  intros HPQ Hm s. destruct (Hm s) as (calls & Htrace & Hcalls).
  exists calls. split; [exact Htrace|]. now apply (Forall_impl P).
Qed.

Lemma translate_text_emits E text source_lang target_lang :
  emits (fun _ => True) (translate_text E text source_lang target_lang).
Proof.
  unfold translate_text, post.
  destruct (decide (source_lang = target_lang)); [apply emits_ret|].
  apply emits_bind; [now apply emits_perform|intros r].
  apply emits_bind; [apply emits_lift|intros _].
  apply emits_bind; [apply emits_lift|intros body]. apply emits_lift.
Qed.

Section StartsWith.

Context {A B : Type}.

Lemma starts_with_perform c (answer : list call -> result A) :
  starts_with c (perform c answer).
Proof. intros s. now exists []. Qed.

Lemma starts_with_bind c (m : M A) (f : A -> M B) :
  starts_with c m -> (forall a, emits (fun _ => True) (f a)) ->
  starts_with c (m ≫= f).
Proof.
  intros Hm Hf s. unfold mbind, M_bind.
  destruct (Hm s) as (calls & Htrace).
  destruct (m s) as [[a|e] s1]; cbn [snd] in *.
  - destruct (Hf a s1) as (calls' & Htrace' & _).
    exists (calls ++ calls'). now rewrite Htrace', Htrace, <- app_assoc.
  - now exists calls.
Qed.

Lemma starts_with_try_except c (body : M A) handler :
  starts_with c body -> (forall e, emits (fun _ => True) (handler e)) ->
  starts_with c (try_except body handler).
Proof.
  intros Hm Hh s. unfold try_except.
  destruct (Hm s) as (calls & Htrace).
  destruct (body s) as [[a|e] s1]; cbn [snd] in *.
  - now exists calls.
  - destruct (Hh e s1) as (calls' & Htrace' & _).
    exists (calls ++ calls'). now rewrite Htrace', Htrace, <- app_assoc.
Qed.

End StartsWith.

(** Outside English the first thing [ask] does is ask the Translation
    Service to translate the query from the user's language code. *)
Lemma ask_first_call E query language :
  dict_get LANGUAGE_CODES language en_IN <> en_IN ->
  starts_with
    (Post translate_url (json_headers E)
       (JsonBody (translate_payload query (dict_get LANGUAGE_CODES language en_IN) en_IN)))
    (ask E query language).
Proof.
  intros Hne. unfold ask.
  apply starts_with_try_except; [|intros [m r|m]; apply emits_ret].
  unfold ask_try, query_to_english, answer_to_user.
  destruct (decide (dict_get LANGUAGE_CODES language en_IN ≠ en_IN)) as [_|H];
    [|contradiction].
  apply starts_with_bind.
  - unfold translate_text.
    destruct (decide (dict_get LANGUAGE_CODES language en_IN = en_IN)) as [H|_];
      [contradiction|].
    apply starts_with_bind; [apply starts_with_perform|intros r].
    apply emits_bind; [apply emits_lift|intros _].
    apply emits_bind; [apply emits_lift|intros body]. apply emits_lift.
  - intros q_en.
    apply emits_bind;
      [eapply emits_weaken; [|apply retrieve_passages_emits]; easy|intros ps].
    apply emits_bind;
      [eapply emits_weaken; [|apply generate_answer_emits]; easy|intros answer_en].
    apply emits_bind; [apply translate_text_emits|intros ans]. apply emits_ret.
Qed.

Lemma dict_get_missing (table : list (pystr * pystr)) key dflt :
  key ∉ table.*1 -> dict_get (list_to_map table) key dflt = dflt.
Proof.
  intros H. unfold dict_get.
  now rewrite (not_elem_of_list_to_map_1 (M := gmap pystr) table key H).
Qed.

Lemma unknown_language_code language :
  language ∉ display_names -> dict_get LANGUAGE_CODES language en_IN = en_IN.
Proof. intros H. apply dict_get_missing. exact H. Qed.

(** C4. [ask] runs its stages under the language code of the table for each
    of the ten display names, and under English's code ["en-IN"] for every
    other string; the lookup never fails. *)
Theorem ask_resolves_language E (query language : pystr) s :
  exists lang_code,
    ask E query language s
      = try_except (ask_try E query language lang_code) (ask_except language) s
    /\ (language = lit "English" -> lang_code = lit "en-IN")
    /\ (language = lit "Hindi" -> lang_code = lit "hi-IN")
    /\ (language = lit "Tamil" -> lang_code = lit "ta-IN")
    /\ (language = lit "Telugu" -> lang_code = lit "te-IN")
    /\ (language = lit "Kannada" -> lang_code = lit "kn-IN")
    /\ (language = lit "Malayalam" -> lang_code = lit "ml-IN")
    /\ (language = lit "Bengali" -> lang_code = lit "bn-IN")
    /\ (language = lit "Marathi" -> lang_code = lit "mr-IN")
    /\ (language = lit "Gujarati" -> lang_code = lit "gu-IN")
    /\ (language = lit "Punjabi" -> lang_code = lit "pa-IN")
    /\ (language ∉ display_names -> lang_code = lit "en-IN")
    /\ (lang_code <> lit "en-IN" ->
        exists calls,
          trace (ask E query language s).2
          = trace s ++ Post translate_url (json_headers E)
                         (JsonBody (translate_payload query lang_code (lit "en-IN")))
                       :: calls).
Proof.
  exists (dict_get LANGUAGE_CODES language en_IN).
  split; [reflexivity|].
  do 10 (split; [intros ->; vm_compute; reflexivity|]).
  split; [apply unknown_language_code|].
  intros Hne. now apply ask_first_call.
Qed.

Lemma ask_resolves_language_witness :
  (exists lang_code,
      ask Sample.healthy Sample.ram_kaun_hai (lit "Hindi") initial
        = try_except (ask_try Sample.healthy Sample.ram_kaun_hai (lit "Hindi") lang_code)
                     (ask_except (lit "Hindi")) initial
      /\ lang_code = lit "hi-IN")
  /\ (exists lang_code,
      ask Sample.healthy Sample.hanuman (lit "Sanskrit") initial
        = try_except (ask_try Sample.healthy Sample.hanuman (lit "Sanskrit") lang_code)
                     (ask_except (lit "Sanskrit")) initial
      /\ lang_code = lit "en-IN").
Proof.
  split.
  - destruct (ask_resolves_language Sample.healthy Sample.ram_kaun_hai (lit "Hindi")
                initial) as (lang_code & Hask & _ & Hhindi & _).
    exists lang_code. split; [exact Hask|]. apply Hhindi. reflexivity.
  - destruct (ask_resolves_language Sample.healthy Sample.hanuman (lit "Sanskrit")
                initial) as (lang_code & Hask & _ & _ & _ & _ & _ & _ & _ & _ & _ & _ & H & _).
    exists lang_code. split; [exact Hask|].
    apply H. unfold display_names. vm_compute.
    intros Hin. repeat (apply elem_of_cons in Hin as [Hin|Hin]; [discriminate Hin|]).
    now apply elem_of_nil in Hin.
Defined.




(** The two error dicts of [ask] have no [query_en] key. *)
Lemma ask_failure_lacks_query_en E (query language : pystr) s r s' :
  ask E query language s = (Ok r, s') ->
  PipelineResult.error r <> None -> PipelineResult.query_en r = None.
Proof.
  destruct (ask_cases E query language s)
    as [(ans & ps & q_en & s1 & _ & Hask)|(e & s1 & _ & Hask)];
    rewrite Hask; intros [= <- _]; [intros H; now contradiction H|reflexivity].
Qed.

Lemma translate_text_gives_text E text source_lang target_lang s v s' :
  translation_gives_text E ->
  translate_text E text source_lang target_lang s = (Ok v, s') ->
  exists a, v = PStr a.
Proof.
  intros Hschema. unfold translate_text.
  destruct (decide (source_lang = target_lang)) as [_|_].
  { intros [= <- _]. now exists text. }
  unfold mbind, M_bind, post, perform, lift.
  destruct (requests_post E _ _ _ _) as [r|e] eqn:Hpost; [|discriminate].
  destruct (raise_for_status translate_url r); [|discriminate].
  unfold json. destruct (json_body r) as [body|msg] eqn:Hjson; [|discriminate].
  destruct body as [| | | | |l|d]; try discriminate.
  cbn [py_get]. intros [= <- _].
  destruct (assoc (lit "translated_text") d) as [v|] eqn:Hfield; cbn [default].
  - exact (Hschema _ _ _ _ _ _ Hpost Hjson Hfield).
  - now exists text.
Qed.

Lemma answer_to_user_gives_text E answer_en lang_code s v s' :
  lang_code = en_IN \/ translation_gives_text E ->
  answer_to_user E answer_en lang_code s = (Ok v, s') ->
  exists a, v = PStr a.
Proof.
  unfold answer_to_user. intros Hcase.
  destruct (decide (lang_code ≠ en_IN)) as [Hne|_].
  - destruct Hcase as [Hen|Hschema]; [contradiction|].
    now apply translate_text_gives_text.
  - intros [= <- _]. now exists answer_en.
Qed.

(** C1, as the code has it. [ask] always returns a dict, never with both
    [answer] and [error] set, and on failure [error] is a string and
    [answer] is None. On success [error] is None and [answer] is what the
    last stage produced: a string whenever the language resolves to
    ["en-IN"] or the Translation Service keeps to its schema. *)
Theorem ask_answer_or_error E (query language : pystr) s :
  exists r s',
    ask E query language s = (Ok r, s')
    /\ (PipelineResult.error r <> None -> PipelineResult.answer r = PNone)
    /\ (dict_get LANGUAGE_CODES language en_IN = en_IN \/ translation_gives_text E ->
        exactly_one r).
Proof.
  destruct (ask_cases E query language s)
    as [(ans & ps & q_en & s' & Htry & Hask)|(e & s' & _ & Hask)].
  - exists (success ans ps language q_en), s'. split; [exact Hask|]. split.
    + intros H. now contradiction H.
    + intros Hcase. left.
      apply ask_try_ok in Htry as (q & s1 & ? & ? & ? & ? & ans' & _ & _ & _ & H4 & Heq).
      injection Heq as Ha Hp Hq.
      destruct (answer_to_user_gives_text _ _ _ _ _ _ Hcase H4) as [a ->].
      exists a. now split.
  - exists (failure language (error_message e)), s'. split; [exact Hask|]. split.
    + reflexivity.
    + intros _. right. split; [reflexivity|]. now eexists.
Qed.

Lemma ask_answer_or_error_witness :
  exists r s',
    ask Sample.healthy Sample.ram_kaun_hai (lit "Hindi") initial = (Ok r, s')
    /\ exactly_one r.
Proof.
  destruct (ask_answer_or_error Sample.healthy Sample.ram_kaun_hai (lit "Hindi") initial)
    as (r & s' & Hask & _ & Hone).
  exists r, s'. split; [exact Hask|]. apply Hone. right.
  intros t headers body r0 d v Hpost Hjson Hfield. cbn in Hpost.
  destruct (decide (_ = _)) in Hpost.
  - injection Hpost as <-. injection Hjson as <-.
    vm_compute in Hfield. injection Hfield as <-. now eexists.
  - injection Hpost as <-. injection Hjson as <-.
    vm_compute in Hfield. discriminate.
Defined.

(** The schema matters for C1: in a Hindi session whose back-translation comes
    back with a null [translated_text], [ask] returns a dict in which
    [answer] and [error] are both None. *)
Lemma ask_null_back_translation :
  exists r s',
    ask Sample.null_back_translation Sample.ram_kaun_hai (lit "Hindi") initial = (Ok r, s')
    /\ PipelineResult.answer r = PNone
    /\ PipelineResult.error r = None
    /\ ¬ exactly_one r.
Proof.
  eexists _, _. split; [vm_compute; reflexivity|].
  split; [reflexivity|]. split; [reflexivity|].
  intros [(a & Ha & _)|(_ & m & Hm)]; discriminate.
Qed.

(** The generation stage makes one call, the chat completion request built
    from the query and the passages it was given. *)
Lemma generate_answer_call E query_en ps s :
  trace (generate_answer E query_en ps s).2
  = trace s ++ [Post chat_url (json_headers E) (JsonBody (chat_payload E query_en ps))].
Proof.
  unfold generate_answer, post, mbind, M_bind, perform, lift.
  destruct (requests_post E _ _ _ _) as [r|e]; cbn [snd]; [|reflexivity].
  destruct (raise_for_status chat_url r); reflexivity.
Qed.

(** The retrieval stage always leaves a call behind: opening the store or
    querying it. *)
Lemma retrieve_passages_call E query_en n s :
  exists c calls, trace (retrieve_passages E query_en n s).2 = trace s ++ c :: calls.
Proof.
  unfold retrieve_passages, get_collection, mbind, M_bind, perform, lift.
  destruct (_collection s) as [c|].
  - exists (Query [query_en] n), [].
    now destruct (collection_query E _ _ _ _).
  - destruct (open_collection E _ _ _) as [c|e]; cbn [snd trace record].
    + exists (OpenCollection DB_PATH COLLECTION), [Query [query_en] n].
      destruct (collection_query E _ _ _ _); cbn [snd trace record];
        now rewrite <- app_assoc.
    + now exists (OpenCollection DB_PATH COLLECTION), [].
Qed.

(** A store that finds nothing gives the empty list of passages. *)
Lemma retrieve_passages_empty E query_en n s c results documents :
  _collection s = Some c ->
  collection_query E (trace s) c [query_en] n = Ok results ->
  getitem results "documents" = Ok documents ->
  getitem_at documents 0 = Ok (PList []) ->
  (retrieve_passages E query_en n s).1 = Ok [].
Proof.
  intros Hc Hq Hd H0.
  unfold retrieve_passages, get_collection, mbind, M_bind, perform, lift.
  rewrite Hc, Hq. cbn [fst]. unfold mbind, result_bind. now rewrite Hd, H0.
Qed.

Lemma context_parts_length E start ps :
  length (context_parts E start ps) = length ps.
Proof.
  revert start. induction ps as [|p ps IH]; intros start; cbn; [reflexivity|].
  now rewrite IH.
Qed.

Lemma context_parts_lookup E ps :
  forall start k p,
    ps !! k = Some p ->
    context_parts E start ps !! k = Some (context_part E (start + Z.of_nat k) p).
Proof.
  induction ps as [|p0 ps IH]; intros start k p Hk; [discriminate|].
  cbn [context_parts]. destruct k as [|k].
  - injection Hk as ->. now rewrite Z.add_0_r.
  - change (context_parts E (start + 1) ps !! k
            = Some (context_part E (start + Z.of_nat (S k)) p)).
    rewrite (IH (start + 1) k p Hk). do 2 f_equal. lia.
Qed.

(** The body of the chat completion request, spelled out: the user message
    holds one part per passage, in order, numbered from 1. *)
Lemma chat_payload_spelled E (query_en : pyval) (ps : list passage) :
  exists parts : list pystr,
    length parts = length ps
    /\ (forall k p,
          ps !! k = Some p ->
          parts !! k
          = Some (lit "[Passage " ++ str_int (Z.of_nat k + 1) ++ lit " " ++ em_dash
                  ++ lit " " ++ py_str (py_repr E) (kanda p) ++ lit ", Topic: "
                  ++ py_str (py_repr E) (topic p) ++ lit "]" ++ nl
                  ++ py_str (py_repr E) (p_text p)))
    /\ chat_payload E query_en ps
       = PDict [(lit "model", PStr (lit "sarvam-m"));
                (lit "messages",
                 PList [PDict [(lit "role", PStr (lit "system"));
                               (lit "content", PStr system_prompt)];
                        PDict [(lit "role", PStr (lit "user"));
                               (lit "content",
                                PStr (lit "Context from the Ramayana:" ++ nl ++ nl
                                      ++ join (nl ++ nl) parts ++ nl ++ nl
                                      ++ lit "Question: " ++ py_str (py_repr E) query_en
                                      ++ nl ++ nl ++ lit "Answer as Valmiki the sage:"))]]);
                (lit "max_tokens", PInt 512)].
Proof.
  exists (context_parts E 1 ps). split; [apply context_parts_length|]. split.
  - intros k p Hk. etransitivity; [exact (context_parts_lookup E ps 1 k p Hk)|].
    unfold context_part. now replace (1 + Z.of_nat k) with (Z.of_nat k + 1) by lia.
  - reflexivity.
Qed.

(** C8. Whatever the number of passages the retrieval returns, none
    included, [ask] goes on to the generation stage: the chat completion
    request it sends carries a context block of one labelled part per
    passage retrieved, in order (the empty string for none), between the
    heading and the question. When the generation and the translation of
    the answer return, so does [ask]: with error None, the passages as
    retrieved and the generated answer. *)
Theorem ask_few_passages E (query language : pystr) s q_en s1 ps s2 answer_en s3 ans s4 :
  query_to_english E query (dict_get LANGUAGE_CODES language en_IN) s = (Ok q_en, s1) ->
  retrieve_passages E q_en 3 s1 = (Ok ps, s2) ->
  generate_answer E q_en ps s2 = (Ok answer_en, s3) ->
  answer_to_user E answer_en (dict_get LANGUAGE_CODES language en_IN) s3 = (Ok ans, s4) ->
  exists r (parts : list pystr),
    ask E query language s = (Ok r, s4)
    /\ PipelineResult.error r = None
    /\ PipelineResult.answer r = ans
    /\ PipelineResult.passages r = ps
    /\ (dict_get LANGUAGE_CODES language en_IN = en_IN -> ans = PStr answer_en)
    /\ length parts = length ps
    /\ (forall k p,
          ps !! k = Some p ->
          parts !! k
          = Some (lit "[Passage " ++ str_int (Z.of_nat k + 1) ++ lit " " ++ em_dash
                  ++ lit " " ++ py_str (py_repr E) (kanda p) ++ lit ", Topic: "
                  ++ py_str (py_repr E) (topic p) ++ lit "]" ++ nl
                  ++ py_str (py_repr E) (p_text p)))
    /\ (ps = [] -> join (nl ++ nl) parts = [])
    /\ trace s3
       = trace s2
         ++ [Post (lit "https://api.sarvam.ai/v1/chat/completions") (json_headers E)
               (JsonBody
                  (PDict [(lit "model", PStr (lit "sarvam-m"));
                          (lit "messages",
                           PList [PDict [(lit "role", PStr (lit "system"));
                                         (lit "content", PStr system_prompt)];
                                  PDict [(lit "role", PStr (lit "user"));
                                         (lit "content",
                                          PStr (lit "Context from the Ramayana:" ++ nl ++ nl
                                                ++ join (nl ++ nl) parts ++ nl ++ nl
                                                ++ lit "Question: "
                                                ++ py_str (py_repr E) q_en
                                                ++ nl ++ nl
                                                ++ lit "Answer as Valmiki the sage:"))]]);
                          (lit "max_tokens", PInt 512)]))].
Proof.
  intros H1 H2 H3 H4.
  destruct (chat_payload_spelled E q_en ps) as (parts & Hlen & Hparts & Hpayload).
  exists (success ans ps language q_en), parts.
  split.
  { unfold ask. apply try_except_ok. unfold ask_try.
    rewrite (bind_ok _ _ _ _ _ H1), (bind_ok _ _ _ _ _ H2), (bind_ok _ _ _ _ _ H3).
    now rewrite (bind_ok _ _ _ _ _ H4). }
  do 3 (split; [reflexivity|]).
  split.
  { intros Hen. rewrite Hen in H4. unfold answer_to_user in H4.
    destruct (decide (en_IN ≠ en_IN)) as [Hne|_]; [contradiction|].
    now injection H4 as <- _. }
  split; [exact Hlen|]. split; [exact Hparts|]. split.
  { intros ->. destruct parts; [reflexivity|discriminate]. }
  pose proof (generate_answer_call E q_en ps s2) as Hcall.
  rewrite H3 in Hcall. cbn [snd] in Hcall. now rewrite Hcall, Hpayload.
Qed.

Lemma ask_few_passages_witness :
  exists r s2 s4,
    ask Sample.empty_store Sample.hanuman (lit "English") initial = (Ok r, s4)
    /\ PipelineResult.error r = None
    /\ PipelineResult.answer r = PStr (lit "Hanuman is the son of Vayu.")
    /\ PipelineResult.passages r = []
    /\ trace s4
       = trace s2
         ++ [Post (lit "https://api.sarvam.ai/v1/chat/completions")
               (json_headers Sample.empty_store)
               (JsonBody
                  (PDict [(lit "model", PStr (lit "sarvam-m"));
                          (lit "messages",
                           PList [PDict [(lit "role", PStr (lit "system"));
                                         (lit "content", PStr system_prompt)];
                                  PDict [(lit "role", PStr (lit "user"));
                                         (lit "content",
                                          PStr (lit "Context from the Ramayana:" ++ nl ++ nl
                                                ++ nl ++ nl
                                                ++ lit "Question: Who is Hanuman?"
                                                ++ nl ++ nl
                                                ++ lit "Answer as Valmiki the sage:"))]]);
                          (lit "max_tokens", PInt 512)]))].
Proof.
  pose (s2 := (retrieve_passages Sample.empty_store (PStr Sample.hanuman) 3 initial).2).
  pose (s3 := (generate_answer Sample.empty_store (PStr Sample.hanuman) [] s2).2).
  destruct (ask_few_passages Sample.empty_store Sample.hanuman (lit "English") initial
              (PStr Sample.hanuman) initial [] s2
              (lit "Hanuman is the son of Vayu.") s3
              (PStr (lit "Hanuman is the son of Vayu.")) s3)
    as (r & parts & Hask & Herr & Hans & Hps & _ & _ & _ & Hempty & Htrace);
    try (vm_compute; reflexivity).
  exists r, s2, s3. do 4 (split; [assumption|]).
  rewrite Htrace, (Hempty eq_refl). reflexivity.
Defined.

Lemma translate_text_transport_error E text source_lang target_lang s e :
  source_lang <> target_lang ->
  requests_post E (trace s) translate_url (json_headers E)
    (JsonBody (translate_payload text source_lang target_lang)) = Raise e ->
  (translate_text E text source_lang target_lang s).1 = Raise e.
Proof.
  intros Hne Hpost. unfold translate_text.
  destruct (decide (source_lang = target_lang)) as [Heq|_]; [contradiction|].
  unfold mbind, M_bind, post, perform. now rewrite Hpost.
Qed.

Lemma translate_text_http_error E text source_lang target_lang s r :
  source_lang <> target_lang ->
  requests_post E (trace s) translate_url (json_headers E)
    (JsonBody (translate_payload text source_lang target_lang)) = Ok r ->
  400 <= status_code r < 600 ->
  exists msg, (translate_text E text source_lang target_lang s).1
              = Raise (HTTPError msg r).
Proof.
  intros Hne Hpost Hstatus. unfold translate_text.
  destruct (decide (source_lang = target_lang)) as [Heq|_]; [contradiction|].
  unfold mbind, M_bind, post, perform, lift. rewrite Hpost.
  unfold raise_for_status.
  destruct ((400 <=? status_code r) && (status_code r <? 500)) eqn:H4; [now eexists|].
  destruct ((500 <=? status_code r) && (status_code r <? 600)) eqn:H5; [now eexists|].
  apply andb_false_iff in H4, H5. lia.
Qed.

Lemma speech_to_text_returns E audio language s :
  exists r s',
    speech_to_text E audio language s = (Ok r, s')
    /\ (TranscriptionResult.error r = None
        \/ (TranscriptionResult.transcript r = PStr []
            /\ exists msg, TranscriptionResult.error r = Some msg)).
Proof.
  unfold speech_to_text, try_except.
  match goal with |- context [match ?body s with _ => _ end] =>
    destruct (body s) as [[r|e] s'] eqn:Hbody end.
  - exists r, s'. split; [reflexivity|]. left.
    repeat (apply bind_inv_ok in Hbody as (? & ? & _ & Hbody)).
    now injection Hbody as <- _.
  - destruct e as [m r|m]; eexists _, s'; (split; [reflexivity|]); right;
      (split; [reflexivity|]); now eexists.
Qed.

Lemma text_to_speech_returns E text language s :
  exists r s',
    text_to_speech E text language s = (Ok r, s')
    /\ ((exists audio, SynthesisResult.audio_bytes r = Some audio
                       /\ SynthesisResult.error r = None)
        \/ (SynthesisResult.audio_bytes r = None
            /\ exists msg, SynthesisResult.error r = Some msg)).
Proof.
  unfold text_to_speech, try_except.
  match goal with |- context [match ?body s with _ => _ end] =>
    destruct (body s) as [[r|e] s'] eqn:Hbody end.
  - exists r, s'. split; [reflexivity|]. left.
    repeat (apply bind_inv_ok in Hbody as (? & ? & _ & Hbody)).
    injection Hbody as <- _. now eexists.
  - eexists _, s'. split; [reflexivity|]. right. split; [reflexivity|]. now eexists.
Qed.

(** [len] of a value without a length. *)
Lemma py_len_spoken (text : spoken) :
  (forall t, text <> SStr t) ->
  py_len (spoken_value text)
  = TypeError ("object of type '" ++ type_name (spoken_value text) ++ "' has no len()").
Proof. intros Hother. destruct text; [now contradiction (Hother s)|reflexivity..]. Qed.

Lemma text_to_speech_value_raises E (text : spoken) (language : pystr) s :
  (forall t, text <> SStr t) ->
  text_to_speech_value E text language s
  = (Raise (Exception (lit ("object of type '" ++ type_name (spoken_value text)
                            ++ "' has no len()"))), s).
Proof. intros Hother. destruct text; [now contradiction (Hother s0)|reflexivity..]. Qed.

(** C7, as the code has it. [speech_to_text] always returns a dict: when
    its request or the handling of the answer raises, the dict carries
    the message in [error] next to an empty transcript. [text_to_speech]
    does the same for what its [try] block raises, so given a string it
    always returns a dict, with the message in [error] and no audio on
    failure; but its length check stands before the [try], and given a
    text without a length (None, a boolean, a number: an answer of [ask]
    can be one) it raises a TypeError to its caller and makes no call.
    [translate_text] has no handler: a failed request or a 4xx or 5xx
    answer reaches its caller as an exception (and [ask] is the one that
    turns it into an error dict). *)
Theorem speech_adapters_swallow_exceptions E :
  (forall audio language s,
      exists r s',
        speech_to_text E audio language s = (Ok r, s')
        /\ (TranscriptionResult.error r = None
            \/ (TranscriptionResult.transcript r = PStr []
                /\ exists msg, TranscriptionResult.error r = Some msg)))
  /\ (forall text language s,
      exists r s',
        text_to_speech E text language s = (Ok r, s')
        /\ text_to_speech_value E (SStr text) language s = (Ok r, s')
        /\ ((exists audio, SynthesisResult.audio_bytes r = Some audio
                           /\ SynthesisResult.error r = None)
            \/ (SynthesisResult.audio_bytes r = None
                /\ exists msg, SynthesisResult.error r = Some msg)))
  /\ (forall (text : spoken) (language : pystr) s,
      (forall t, text <> SStr t) ->
      py_len (spoken_value text)
      = Raise (Exception (lit ("object of type '" ++ type_name (spoken_value text)
                               ++ "' has no len()")))
      /\ text_to_speech_value E text language s
         = (Raise (Exception (lit ("object of type '" ++ type_name (spoken_value text)
                                   ++ "' has no len()"))), s))
  /\ (forall (text source_lang target_lang : pystr) s r,
      source_lang <> target_lang ->
      requests_post E (trace s) translate_url (json_headers E)
        (JsonBody (translate_payload text source_lang target_lang)) = Ok r ->
      400 <= status_code r < 600 ->
      exists msg, (translate_text E text source_lang target_lang s).1
                  = Raise (HTTPError msg r))
  /\ (forall (text source_lang target_lang : pystr) s e,
      source_lang <> target_lang ->
      requests_post E (trace s) translate_url (json_headers E)
        (JsonBody (translate_payload text source_lang target_lang)) = Raise e ->
      (translate_text E text source_lang target_lang s).1 = Raise e).
Proof.
  split; [exact (speech_to_text_returns E)|].
  split.
  { intros text language s.
    destruct (text_to_speech_returns E text language s) as (r & s' & Hrun & Hcases).
    now exists r, s'. }
  split.
  { intros text language s Hother.
    split; [now apply py_len_spoken|now apply text_to_speech_value_raises]. }
  split; [exact (translate_text_http_error E)|].
  exact (translate_text_transport_error E).
Qed.

Lemma speech_adapters_swallow_exceptions_witness :
  (exists r s',
      speech_to_text Sample.translation_down [] (lit "Hindi") initial = (Ok r, s'))
  /\ (exists r s',
      text_to_speech Sample.translation_down Sample.ram_kaun_hai (lit "Hindi") initial
        = (Ok r, s'))
  /\ (exists r s',
      ask Demo.number_translation Sample.ram_kaun_hai (lit "Hindi") initial = (Ok r, s')
      /\ PipelineResult.error r = None
      /\ PipelineResult.answer r = spoken_value (SInt 7)
      /\ text_to_speech_value Demo.number_translation (SInt 7)
           (PipelineResult.language r) s'
         = (Raise (Exception (lit "object of type 'int' has no len()")), s'))
  /\ exists msg,
      (translate_text Sample.translation_down Sample.ram_kaun_hai (lit "hi-IN") en_IN
         initial).1
      = Raise (HTTPError msg (Sample.error_response 500 (lit "upstream overloaded"))).
Proof.
  destruct (speech_adapters_swallow_exceptions Sample.translation_down)
    as (Hstt & Htts & _ & Hhttp & _).
  destruct (speech_adapters_swallow_exceptions Demo.number_translation)
    as (_ & _ & Hlen & _ & _).
  split.
  { destruct (Hstt [] (lit "Hindi") initial) as (r & s' & H & _). now exists r, s'. }
  split.
  { destruct (Htts Sample.ram_kaun_hai (lit "Hindi") initial) as (r & s' & H & _).
    now exists r, s'. }
  split.
  { eexists _, _. split; [vm_compute; reflexivity|].
    do 2 (split; [reflexivity|]).
    refine (proj2 (Hlen (SInt 7) _ _ _)). discriminate. }
  apply Hhttp.
  - vm_compute. discriminate.
  - vm_compute. reflexivity.
  - cbn. lia.
Defined.

(** [translate_text] is the exception to C7: when the Translation Service
    answers HTTP 500 the caller gets the exception, not a result. *)
Lemma translate_text_raises :
  exists msg s',
    translate_text Sample.translation_down Sample.ram_kaun_hai (lit "hi-IN") en_IN
      initial
    = (Raise (HTTPError msg (Sample.error_response 500 (lit "upstream overloaded"))), s')
    /\ ¬ exists v s'',
           translate_text Sample.translation_down Sample.ram_kaun_hai (lit "hi-IN") en_IN
             initial = (Ok v, s'').
Proof.
  eexists _, _. split; [vm_compute; reflexivity|].
  intros (v & s'' & H). vm_compute in H. discriminate.
Qed.

(** ** Further properties: the passage store *)

(** X1. The store is opened at most once: after a [get_collection] that
    returned a handle, every further [get_collection] returns the same
    handle and makes no call. *)
Theorem get_collection_cached E s c s1 :
  get_collection E s = (Ok c, s1) ->
  get_collection E s1 = (Ok c, s1) /\ _collection s1 = Some c.
Proof.
  unfold get_collection, perform.
  destruct (_collection s) as [c0|] eqn:Hs.
  - intros [= <- <-]. now rewrite Hs.
  - destruct (open_collection E _ _ _) as [c0|e]; [|discriminate].
    intros [= <- <-]. now cbn.
Qed.

Lemma get_collection_cached_witness :
  exists s1,
    get_collection Sample.healthy initial = (Ok 1%N, s1)
    /\ get_collection Sample.healthy s1 = (Ok 1%N, s1)
    /\ trace s1 = [OpenCollection DB_PATH COLLECTION].
Proof.
  exists (get_collection Sample.healthy initial).2.
  split; [reflexivity|]. split; [|reflexivity].
  exact (proj1 (get_collection_cached Sample.healthy initial 1%N _ eq_refl)).
Defined.

(** X2. When the store cannot be opened, [retrieve_passages] raises the
    store's exception without sending a query, and the handle stays unset:
    the next request tries to open the store again. *)
Theorem retrieve_passages_store_missing E query_en n s e :
  _collection s = None ->
  open_collection E (trace s) DB_PATH COLLECTION = Raise e ->
  exists s1,
    retrieve_passages E query_en n s = (Raise e, s1)
    /\ trace s1 = trace s ++ [OpenCollection DB_PATH COLLECTION]
    /\ _collection s1 = None.
Proof.
  intros Hs Hopen. exists (record (OpenCollection DB_PATH COLLECTION) s).
  unfold retrieve_passages, get_collection, mbind, M_bind, perform.
  rewrite Hs, Hopen. cbn. now rewrite Hs.
Qed.

Lemma retrieve_passages_store_missing_witness :
  exists e s1,
    retrieve_passages Demo.no_store (PStr Sample.hanuman) 3 initial = (Raise e, s1)
    /\ trace s1 = trace initial ++ [OpenCollection DB_PATH COLLECTION]
    /\ _collection s1 = None.
Proof.
  eexists.
  apply (retrieve_passages_store_missing Demo.no_store (PStr Sample.hanuman) 3 initial);
    reflexivity.
Defined.

Lemma collect_passages_zip results wrapped metas rest docs :
  getitem results "metadatas" = Ok wrapped ->
  getitem_at wrapped 0 = Ok (PList metas) ->
  Forall is_dict metas ->
  forall i acc,
    (i + length docs <= length metas)%nat ->
    collect_passages results i docs acc
    = Ok (acc ++ zip_with passage_of docs (drop i metas ++ rest)).
Proof.
  intros Hm H0 Hdict.
  induction docs as [|doc docs IH]; intros i acc Hlen; cbn [collect_passages length] in *.
  - now rewrite app_nil_r.
  - destruct (lookup_lt_is_Some_2 metas i ltac:(lia)) as [meta Hmeta].
    unfold mbind, result_bind. rewrite Hm, H0. cbn [getitem_at]. rewrite Hmeta.
    destruct (proj1 (Forall_lookup _ _) Hdict i meta Hmeta) as [d ->].
    cbn [py_get]. rewrite (IH (S i) _ ltac:(lia)).
    rewrite (drop_S _ _ _ Hmeta), <- app_assoc. reflexivity.
Qed.

(** X3. From a store answer whose first metadata list has a dict for each
    document, [retrieve_passages] returns one passage per document, in the
    store's order: its text is the document, and [kanda], [topic] and
    [characters] are the metadata's, the empty string where a key is
    missing. The number of passages is the number of documents, whatever
    [n_results] was. *)
Theorem retrieve_passages_well_formed E query_en n s c s1 results
    docs more_docs metas more_metas :
  get_collection E s = (Ok c, s1) ->
  collection_query E (trace s1) c [query_en] n = Ok results ->
  getitem results "documents" = Ok (PList (PList docs :: more_docs)) ->
  getitem results "metadatas" = Ok (PList (PList metas :: more_metas)) ->
  Forall is_dict metas ->
  (length docs <= length metas)%nat ->
  (retrieve_passages E query_en n s).1 = Ok (zip_with passage_of docs metas)
  /\ length (zip_with passage_of docs metas) = length docs.
Proof.
  intros Hc Hq Hd Hm Hdict Hlen. split.
  - unfold retrieve_passages. rewrite (bind_ok _ _ _ _ _ Hc).
    unfold mbind at 1, M_bind, perform, lift. rewrite Hq. cbn [fst].
    unfold mbind, result_bind. rewrite Hd. cbn [getitem_at lookup list_lookup py_iter].
    rewrite (collect_passages_zip results _ metas [] docs Hm eq_refl Hdict 0 []
               ltac:(lia)).
    now rewrite drop_0, app_nil_r.
  - rewrite length_zip_with. lia.
Qed.

Lemma retrieve_passages_well_formed_witness :
  (retrieve_passages Demo.five_documents (PStr Sample.hanuman) 3 initial).1
  = Ok [passage_of (PStr (lit "a")) (PDict [(lit "kanda", PStr (lit "Bala Kanda"))]);
        passage_of (PStr (lit "b")) (PDict [(lit "topic", PStr (lit "exile"))]);
        passage_of (PStr (lit "c")) (PDict [(lit "topic", PStr (lit "exile"))]);
        passage_of (PStr (lit "d")) (PDict [(lit "topic", PStr (lit "exile"))]);
        passage_of (PStr (lit "e")) (PDict [(lit "topic", PStr (lit "exile"))])]
  /\ topic (passage_of (PStr (lit "a")) (PDict [(lit "kanda", PStr (lit "Bala Kanda"))]))
     = PStr [].
Proof.
  split; [|reflexivity].
  refine (proj1 (retrieve_passages_well_formed Demo.five_documents (PStr Sample.hanuman) 3
                   initial 1%N _ _
                   (PStr <$> [lit "a"; lit "b"; lit "c"; lit "d"; lit "e"]) []
                   (PDict [(lit "kanda", PStr (lit "Bala Kanda"))]
                    :: replicate 4 (PDict [(lit "topic", PStr (lit "exile"))])) []
                   eq_refl eq_refl eq_refl eq_refl _ _)).
  - repeat constructor; now eexists.
  - cbn. lia.
Defined.

Lemma collect_passages_short results wrapped metas docs :
  getitem results "metadatas" = Ok wrapped ->
  getitem_at wrapped 0 = Ok (PList metas) ->
  Forall is_dict metas ->
  forall i acc,
    (i <= length metas < i + length docs)%nat ->
    collect_passages results i docs acc = IndexError "list".
Proof.
  intros Hm H0 Hdict.
  induction docs as [|doc docs IH]; intros i acc Hlen; cbn [collect_passages length] in *.
  - lia.
  - unfold mbind, result_bind. rewrite Hm, H0. cbn [getitem_at].
    destruct (metas !! i) as [meta|] eqn:Hmeta; [|reflexivity].
    destruct (proj1 (Forall_lookup _ _) Hdict i meta Hmeta) as [d ->].
    cbn [py_get]. apply IH. apply lookup_lt_Some in Hmeta. lia.
Qed.

(** X4. When the store's answer has fewer metadata entries than documents,
    [retrieve_passages] raises an IndexError; the passages already built
    are lost. *)
Theorem retrieve_passages_short_metadata E query_en n s c s1 results
    docs more_docs metas more_metas :
  get_collection E s = (Ok c, s1) ->
  collection_query E (trace s1) c [query_en] n = Ok results ->
  getitem results "documents" = Ok (PList (PList docs :: more_docs)) ->
  getitem results "metadatas" = Ok (PList (PList metas :: more_metas)) ->
  Forall is_dict metas ->
  (length metas < length docs)%nat ->
  (retrieve_passages E query_en n s).1
  = Raise (Exception (lit "list index out of range")).
Proof.
  intros Hc Hq Hd Hm Hdict Hlen.
  unfold retrieve_passages. rewrite (bind_ok _ _ _ _ _ Hc).
  unfold mbind at 1, M_bind, perform, lift. rewrite Hq. cbn [fst].
  unfold mbind, result_bind. rewrite Hd. cbn [getitem_at lookup list_lookup py_iter].
  now rewrite (collect_passages_short results _ metas docs Hm eq_refl Hdict 0 []
                 ltac:(lia)).
Qed.

Lemma retrieve_passages_short_metadata_witness :
  (retrieve_passages Demo.short_metadata (PStr Sample.hanuman) 3 initial).1
  = Raise (Exception (lit "list index out of range")).
Proof.
  refine (retrieve_passages_short_metadata Demo.short_metadata (PStr Sample.hanuman) 3
            initial 1%N _ _ [PStr (lit "a"); PStr (lit "b")] [] [PDict []] []
            eq_refl eq_refl eq_refl eq_refl _ _).
  - repeat constructor. now eexists.
  - cbn. lia.
Defined.

(** ** Further properties: generation *)

(** X5. The request [generate_answer] sends numbers the passages 1, 2, 3,
    ... in the order it was given them: the context block of the user
    message, between the heading and the question, is the parts joined by a
    blank line, one part per passage, and the part for the passage at
    position [k] (from 0) reads ["[Passage k+1 — kanda, Topic: topic]"],
    a line break, and the passage's text. *)
Theorem generate_answer_numbers_passages E (query_en : pyval) (ps : list passage) s :
  exists parts : list pystr,
    length parts = length ps
    /\ (forall k p,
          ps !! k = Some p ->
          parts !! k
          = Some (lit "[Passage " ++ str_int (Z.of_nat k + 1) ++ lit " " ++ em_dash
                  ++ lit " " ++ py_str (py_repr E) (kanda p) ++ lit ", Topic: "
                  ++ py_str (py_repr E) (topic p) ++ lit "]" ++ nl
                  ++ py_str (py_repr E) (p_text p)))
    /\ trace (generate_answer E query_en ps s).2
       = trace s
         ++ [Post (lit "https://api.sarvam.ai/v1/chat/completions") (json_headers E)
               (JsonBody
                  (PDict [(lit "model", PStr (lit "sarvam-m"));
                          (lit "messages",
                           PList [PDict [(lit "role", PStr (lit "system"));
                                         (lit "content", PStr system_prompt)];
                                  PDict [(lit "role", PStr (lit "user"));
                                         (lit "content",
                                          PStr (lit "Context from the Ramayana:" ++ nl ++ nl
                                                ++ join (nl ++ nl) parts ++ nl ++ nl
                                                ++ lit "Question: "
                                                ++ py_str (py_repr E) query_en
                                                ++ nl ++ nl
                                                ++ lit "Answer as Valmiki the sage:"))]]);
                          (lit "max_tokens", PInt 512)]))].
Proof.
  destruct (chat_payload_spelled E query_en ps) as (parts & Hlen & Hparts & Hpayload).
  exists parts. split; [exact Hlen|]. split; [exact Hparts|].
  now rewrite generate_answer_call, Hpayload.
Qed.

Lemma generate_answer_numbers_passages_witness :
  trace (generate_answer Sample.healthy (PStr Sample.hanuman)
           [passage_of (PStr (lit "a")) (PDict [(lit "kanda", PStr (lit "Bala Kanda"))]);
            passage_of (PStr (lit "b")) (PDict [(lit "topic", PStr (lit "exile"))])]
           initial).2
  = [Post (lit "https://api.sarvam.ai/v1/chat/completions") (json_headers Sample.healthy)
       (JsonBody
          (PDict [(lit "model", PStr (lit "sarvam-m"));
                  (lit "messages",
                   PList [PDict [(lit "role", PStr (lit "system"));
                                 (lit "content", PStr system_prompt)];
                          PDict [(lit "role", PStr (lit "user"));
                                 (lit "content",
                                  PStr (lit "Context from the Ramayana:" ++ nl ++ nl
                                        ++ lit "[Passage 1 " ++ em_dash
                                        ++ lit " Bala Kanda, Topic: ]" ++ nl ++ lit "a"
                                        ++ nl ++ nl
                                        ++ lit "[Passage 2 " ++ em_dash
                                        ++ lit " , Topic: exile]" ++ nl ++ lit "b"
                                        ++ nl ++ nl
                                        ++ lit "Question: Who is Hanuman?" ++ nl ++ nl
                                        ++ lit "Answer as Valmiki the sage:"))]]);
                  (lit "max_tokens", PInt 512)]))].
Proof.
  destruct (generate_answer_numbers_passages Sample.healthy (PStr Sample.hanuman)
              [passage_of (PStr (lit "a")) (PDict [(lit "kanda", PStr (lit "Bala Kanda"))]);
               passage_of (PStr (lit "b")) (PDict [(lit "topic", PStr (lit "exile"))])]
              initial) as (parts & Hlen & Hparts & Htrace).
  rewrite Htrace.
  destruct parts as [|p1 [|p2 [|p3 parts]]]; try discriminate Hlen.
  pose proof (Hparts 0%nat _ eq_refl) as H1. pose proof (Hparts 1%nat _ eq_refl) as H2.
  injection H1 as ->. injection H2 as ->.
  vm_compute. reflexivity.
Defined.

Lemma lstrip_suffix s :
  exists spaces, s = spaces ++ lstrip s /\ Forall (fun c => isspace c = true) spaces.
Proof.
  induction s as [|c s (spaces & Hs & Hspaces)]; cbn [lstrip].
  - now exists [].
  - destruct (isspace c) eqn:Hc.
    + exists (c :: spaces). split; [now rewrite Hs at 1|now constructor].
    + now exists [].
Qed.

Lemma lstrip_head s c rest : lstrip s = c :: rest -> isspace c = false.
Proof.
  induction s as [|c0 s IH]; cbn [lstrip]; [discriminate|].
  destruct (isspace c0) eqn:Hc; [exact IH|]. now intros [= <- _].
Qed.

(** [strip] removes whitespace from both ends and nothing else. *)
Lemma strip_spec s :
  trimmed (strip s)
  /\ exists before after,
      s = before ++ strip s ++ after
      /\ Forall (fun c => isspace c = true) before
      /\ Forall (fun c => isspace c = true) after.
Proof.
  unfold strip.
  destruct (lstrip_suffix s) as (before & Hs & Hbefore).
  destruct (lstrip_suffix (reverse (lstrip s))) as (after & Hr & Hafter).
  set (t := lstrip s) in *. set (u := lstrip (reverse t)) in *.
  assert (Ht : t = reverse u ++ reverse after).
  { rewrite <- (reverse_involutive t), Hr. now rewrite reverse_app. }
  split; [split|].
  - intros c rest Hc. apply (lstrip_head s c (rest ++ reverse after)).
    fold t. now rewrite Ht, Hc.
  - intros front c Hc. apply (lstrip_head (reverse t) c (reverse front)).
    fold u. rewrite <- (reverse_involutive u), Hc. now rewrite reverse_snoc.
  - exists before, (reverse after). split; [now rewrite <- Ht|].
    split; [exact Hbefore|]. now apply Forall_reverse.
Qed.

Lemma lstrip_blank s : Forall (fun c => isspace c = true) s -> lstrip s = [].
Proof.
  induction 1 as [|c s Hc _ IH]; cbn [lstrip]; [reflexivity|]. now rewrite Hc.
Qed.

Lemma generate_answer_content E query_en ps s r content :
  requests_post E (trace s) chat_url (json_headers E)
    (JsonBody (chat_payload E query_en ps)) = Ok r ->
  answers_with r content ->
  (generate_answer E query_en ps s).1 = Ok (strip content).
Proof.
  intros Hpost (Hstatus & body & choices & choice & rest & message
                & Hjson & Hchoices & -> & Hmessage & Hcontent).
  unfold generate_answer, post, mbind at 1, M_bind, perform. rewrite Hpost.
  unfold mbind at 1, M_bind, lift. rewrite Hstatus.
  cbn [fst]. unfold mbind, result_bind.
  rewrite Hjson, Hchoices. cbn [getitem_at lookup list_lookup].
  now rewrite Hmessage, Hcontent.
Qed.

(** X6. From an answer of the chat endpoint that keeps to its schema,
    [generate_answer] returns the content with the whitespace at both ends
    removed and nothing else changed; a content of whitespace only gives
    the empty answer, not an error. *)
Theorem generate_answer_strips E query_en ps s r content :
  requests_post E (trace s) chat_url (json_headers E)
    (JsonBody (chat_payload E query_en ps)) = Ok r ->
  answers_with r content ->
  exists a,
    (generate_answer E query_en ps s).1 = Ok a
    /\ trimmed a
    /\ (exists before after,
          content = before ++ a ++ after
          /\ Forall (fun c => isspace c = true) before
          /\ Forall (fun c => isspace c = true) after)
    /\ (Forall (fun c => isspace c = true) content -> a = []).
Proof.
  intros Hpost Hr. exists (strip content).
  split; [now apply generate_answer_content with r|].
  destruct (strip_spec content) as [Htrim Hparts].
  split; [exact Htrim|]. split; [exact Hparts|].
  intros Hblank. unfold strip. now rewrite (lstrip_blank _ Hblank).
Qed.

Lemma generate_answer_strips_witness :
  exists a,
    (generate_answer Sample.healthy (PStr Sample.hanuman) [] initial).1 = Ok a
    /\ trimmed a
    /\ a = lit "Hanuman is the son of Vayu.".
Proof.
  destruct (generate_answer_strips Sample.healthy (PStr Sample.hanuman) [] initial
              (Sample.ok_response (Sample.completion (PStr Sample.reply))) Sample.reply)
    as (a & Ha & Htrim & _ & _).
  - reflexivity.
  - split; [reflexivity|]. now eexists _, _, _, _, _.
  - exists a. split; [exact Ha|]. split; [exact Htrim|].
    vm_compute in Ha. now injection Ha as <-.
Defined.

(** X7. A 200 answer of the chat endpoint that does not keep to its schema
    makes [generate_answer] raise: a dict without ["choices"] a KeyError
    whose text is the quoted key, an empty list of choices an IndexError,
    and a null content an AttributeError. *)
Theorem generate_answer_malformed E query_en ps s r d :
  requests_post E (trace s) chat_url (json_headers E)
    (JsonBody (chat_payload E query_en ps)) = Ok r ->
  raise_for_status chat_url r = Ok () ->
  json r = Ok (PDict d) ->
  (assoc (lit "choices") d = None ->
   (generate_answer E query_en ps s).1 = Raise (Exception (lit "'choices'")))
  /\ (assoc (lit "choices") d = Some (PList []) ->
      (generate_answer E query_en ps s).1
      = Raise (Exception (lit "list index out of range")))
  /\ (forall role rest,
        assoc (lit "choices") d
        = Some (PList (PDict [(lit "message",
                               PDict [(lit "role", role); (lit "content", PNone)])]
                       :: rest)) ->
        (generate_answer E query_en ps s).1
        = Raise (Exception (lit "'NoneType' object has no attribute 'strip'"))).
Proof.
  intros Hpost Hstatus Hjson.
  assert (Hrun : (generate_answer E query_en ps s).1
                 = (choices ← getitem (PDict d) "choices";
                    choice ← getitem_at choices 0;
                    message ← getitem choice "message";
                    content ← getitem message "content";
                    py_strip content)).
  { unfold generate_answer, post, mbind at 1, M_bind, perform. rewrite Hpost.
    unfold mbind at 1, M_bind, lift. rewrite Hstatus.
    cbn [fst]. unfold mbind at 1, result_bind at 1. now rewrite Hjson. }
  rewrite Hrun. unfold mbind, result_bind. cbn [getitem].
  split; [|split].
  - now intros ->.
  - now intros ->.
  - intros role rest ->. reflexivity.
Qed.

Lemma generate_answer_malformed_witness :
  (generate_answer Demo.off_schema (PStr Sample.hanuman) [] initial).1
  = Raise (Exception (lit "'choices'")).
Proof.
  refine (proj1 (generate_answer_malformed Demo.off_schema (PStr Sample.hanuman) []
                   initial
                   (Sample.ok_response (PDict [(lit "request_id", PStr (lit "42"))]))
                   [(lit "request_id", PStr (lit "42"))] eq_refl eq_refl eq_refl) _).
  vm_compute. reflexivity.
Defined.

(** ** Further properties: translation *)

Lemma translate_text_trace E (text source_lang target_lang : pystr) s :
  source_lang <> target_lang ->
  trace (translate_text E text source_lang target_lang s).2
  = trace s ++ [Post translate_url (json_headers E)
                  (JsonBody (translate_payload text source_lang target_lang))]
  /\ _collection (translate_text E text source_lang target_lang s).2 = _collection s.
Proof.
  intros Hne. unfold translate_text.
  destruct (decide (source_lang = target_lang)) as [Heq|_]; [contradiction|].
  unfold post, mbind, M_bind, perform, lift.
  destruct (requests_post E _ _ _ _) as [r|e]; [|now split].
  destruct (raise_for_status translate_url r); [|now split].
  destruct (json r); now split.
Qed.

(** X8. Between two different languages [translate_text] makes exactly one
    request, whatever comes of it: a POST to the translate endpoint whose
    body names the text, the two language codes, the model ["mayura:v1"]
    and the mode ["formal"]. It never touches the store handle. *)
Theorem translate_text_call E (text source_lang target_lang : pystr) s :
  source_lang <> target_lang ->
  trace (translate_text E text source_lang target_lang s).2
  = trace s ++ [Post (lit "https://api.sarvam.ai/translate") (json_headers E)
                  (JsonBody (PDict [(lit "input", PStr text);
                                    (lit "source_language_code", PStr source_lang);
                                    (lit "target_language_code", PStr target_lang);
                                    (lit "model", PStr (lit "mayura:v1"));
                                    (lit "mode", PStr (lit "formal"))]))]
  /\ _collection (translate_text E text source_lang target_lang s).2 = _collection s.
Proof. exact (translate_text_trace E text source_lang target_lang s). Qed.

Lemma translate_text_call_witness :
  trace (translate_text Sample.translation_down Sample.ram_kaun_hai (lit "hi-IN") en_IN
           initial).2
  = [Post translate_url (json_headers Sample.translation_down)
       (JsonBody (translate_payload Sample.ram_kaun_hai (lit "hi-IN") en_IN))].
Proof.
  refine (proj1 (translate_text_call Sample.translation_down Sample.ram_kaun_hai
                   (lit "hi-IN") en_IN initial _)).
  vm_compute. discriminate.
Defined.

(** X9. From a 200 answer that is a JSON object, [translate_text] returns
    the value of its ["translated_text"] field, and the text it was given
    when the object has no such field. *)
Theorem translate_text_field E (text source_lang target_lang : pystr) s r d :
  source_lang <> target_lang ->
  requests_post E (trace s) translate_url (json_headers E)
    (JsonBody (translate_payload text source_lang target_lang)) = Ok r ->
  raise_for_status translate_url r = Ok () ->
  json r = Ok (PDict d) ->
  (forall v, assoc (lit "translated_text") d = Some v ->
             (translate_text E text source_lang target_lang s).1 = Ok v)
  /\ (assoc (lit "translated_text") d = None ->
      (translate_text E text source_lang target_lang s).1 = Ok (PStr text)).
Proof.
  intros Hne Hpost Hstatus Hjson. unfold translate_text.
  destruct (decide (source_lang = target_lang)) as [Heq|_]; [contradiction|].
  unfold post, mbind, M_bind, perform, lift. rewrite Hpost, Hstatus, Hjson.
  cbn [fst py_get]. split; [intros v ->|intros ->]; reflexivity.
Qed.

Lemma translate_text_field_witness :
  (translate_text Demo.off_schema Sample.ram_kaun_hai (lit "hi-IN") en_IN initial).1
  = Ok (PStr Sample.ram_kaun_hai).
Proof.
  refine (proj2 (translate_text_field Demo.off_schema Sample.ram_kaun_hai (lit "hi-IN")
                   en_IN initial
                   (Sample.ok_response (PDict [(lit "request_id", PStr (lit "42"))]))
                   [(lit "request_id", PStr (lit "42"))] _ eq_refl eq_refl eq_refl) _).
  - vm_compute. discriminate.
  - vm_compute. reflexivity.
Defined.

(** ** Further properties: the speech adapters *)

(** X10. [speech_to_text] makes exactly one request, whatever comes of it:
    a multipart POST to the speech-to-text endpoint with the audio bytes as
    they were given, under the file name ["audio.wav"], with the model
    ["saarika:v2.5"] and the resolved language code. *)
Theorem speech_to_text_call E (audio : bytes) (language : pystr) s :
  trace (speech_to_text E audio language s).2
  = trace s ++ [Post (lit "https://api.sarvam.ai/speech-to-text")
                  (PDict [(lit "api-subscription-key", SARVAM_API_KEY E)])
                  (Multipart (lit "file") (lit "audio.wav") audio (lit "audio/wav")
                     (PDict [(lit "model", PStr (lit "saarika:v2.5"));
                             (lit "language_code",
                              PStr (dict_get LANGUAGE_CODES language en_IN))]))].
Proof.
  unfold speech_to_text, try_except, post, mbind, M_bind, perform, lift.
  destruct (requests_post E _ _ _ _) as [r|[m r|m]]; try reflexivity.
  destruct (raise_for_status stt_url r) as [[]|[m r'|m]]; try reflexivity.
  destruct (json r) as [body|[m r'|m]]; try reflexivity.
  destruct (py_get body "transcript" _) as [t|[m r'|m]]; try reflexivity.
  destruct (py_get body "language_code" _) as [c|[m r'|m]]; reflexivity.
Qed.

(** X11. When the speech-to-text endpoint answers with a 4xx or 5xx status,
    [speech_to_text] returns an empty transcript, the resolved language
    code, and an error made of ["STT error: "], the status code, a dash and
    the response body. *)
Theorem speech_to_text_http_error E (audio : bytes) (language : pystr) s r :
  requests_post E (trace s) stt_url
    (PDict [(lit "api-subscription-key", SARVAM_API_KEY E)])
    (Multipart (lit "file") (lit "audio.wav") audio (lit "audio/wav")
       (PDict [(lit "model", PStr (lit "saarika:v2.5"));
               (lit "language_code", PStr (dict_get LANGUAGE_CODES language en_IN))]))
  = Ok r ->
  400 <= status_code r < 600 ->
  exists result,
    (speech_to_text E audio language s).1 = Ok result
    /\ TranscriptionResult.transcript result = PStr []
    /\ TranscriptionResult.language_code result
       = PStr (dict_get LANGUAGE_CODES language en_IN)
    /\ TranscriptionResult.error result
       = Some (lit "STT error: " ++ str_int (status_code r) ++ lit " " ++ em_dash
               ++ lit " " ++ text r).
Proof.
  intros Hpost Hstatus.
  exists (stt_failure (dict_get LANGUAGE_CODES language en_IN) (api_error "STT error: " r)).
  split; [|now repeat split].
  unfold speech_to_text, try_except, post, mbind, M_bind, perform, lift.
  rewrite Hpost. unfold raise_for_status.
  destruct ((400 <=? status_code r) && (status_code r <? 500)) eqn:H4; [reflexivity|].
  destruct ((500 <=? status_code r) && (status_code r <? 600)) eqn:H5; [reflexivity|].
  apply andb_false_iff in H4, H5. lia.
Qed.

Lemma speech_to_text_http_error_witness :
  exists result,
    (speech_to_text Demo.busy [] (lit "Tamil") initial).1 = Ok result
    /\ TranscriptionResult.transcript result = PStr []
    /\ TranscriptionResult.language_code result = PStr (lit "ta-IN")
    /\ TranscriptionResult.error result
       = Some (lit "STT error: 503 " ++ em_dash ++ lit " busy").
Proof.
  destruct (speech_to_text_http_error Demo.busy [] (lit "Tamil") initial
              (Sample.error_response 503 (lit "busy")))
    as (result & Hrun & Ht & Hc & He).
  - reflexivity.
  - cbn. lia.
  - exists result. repeat split; assumption.
Defined.

(** X12. From a 200 answer that is a JSON object, [speech_to_text] returns
    error None with the object's ["transcript"] and ["language_code"]; a
    missing transcript becomes the empty string and a missing language code
    the code the request was made with. *)
Theorem speech_to_text_fields E (audio : bytes) (language : pystr) s r d :
  requests_post E (trace s) stt_url
    (PDict [(lit "api-subscription-key", SARVAM_API_KEY E)])
    (Multipart (lit "file") (lit "audio.wav") audio (lit "audio/wav")
       (PDict [(lit "model", PStr (lit "saarika:v2.5"));
               (lit "language_code", PStr (dict_get LANGUAGE_CODES language en_IN))]))
  = Ok r ->
  raise_for_status stt_url r = Ok () ->
  json r = Ok (PDict d) ->
  exists result,
    (speech_to_text E audio language s).1 = Ok result
    /\ TranscriptionResult.error result = None
    /\ TranscriptionResult.transcript result
       = match assoc (lit "transcript") d with Some t => t | None => PStr [] end
    /\ TranscriptionResult.language_code result
       = match assoc (lit "language_code") d with
         | Some c => c
         | None => PStr (dict_get LANGUAGE_CODES language en_IN)
         end.
Proof.
  intros Hpost Hstatus Hjson. eexists. split.
  - unfold speech_to_text, try_except, post, mbind, M_bind, perform, lift.
    rewrite Hpost, Hstatus, Hjson. cbn [py_get fst]. reflexivity.
  - cbn [TranscriptionResult.error TranscriptionResult.transcript
         TranscriptionResult.language_code default].
    split; [reflexivity|].
    split; [destruct (assoc (lit "transcript") d)
           |destruct (assoc (lit "language_code") d)]; reflexivity.
Qed.

Lemma speech_to_text_fields_witness :
  exists result,
    (speech_to_text Demo.off_schema [] (lit "Bengali") initial).1 = Ok result
    /\ TranscriptionResult.error result = None
    /\ TranscriptionResult.transcript result = PStr []
    /\ TranscriptionResult.language_code result = PStr (lit "bn-IN").
Proof.
  destruct (speech_to_text_fields Demo.off_schema [] (lit "Bengali") initial
              (Sample.ok_response (PDict [(lit "request_id", PStr (lit "42"))]))
              [(lit "request_id", PStr (lit "42"))] eq_refl eq_refl eq_refl)
    as (result & Hrun & He & Ht & Hc).
  exists result. repeat split; assumption.
Defined.

Lemma unknown_voice language :
  language ∉ display_names -> dict_get TTS_VOICES language (lit "shubh") = lit "shubh".
Proof. intros H. apply dict_get_missing. exact H. Qed.

(** X13. The two tables name the same ten languages, and for every other
    string both speech adapters fall back to English's code and voice: they
    behave exactly as they do for ["English"]. *)
Theorem speech_adapters_unknown_language E (language : pystr) :
  language ∉ display_names ->
  dom TTS_VOICES = dom LANGUAGE_CODES
  /\ (forall text s,
        text_to_speech E text language s = text_to_speech E text (lit "English") s)
  /\ (forall audio s,
        speech_to_text E audio language s = speech_to_text E audio (lit "English") s).
Proof.
  intros Hunknown. split; [|split].
  - unfold TTS_VOICES, LANGUAGE_CODES. rewrite !dom_list_to_map_L. reflexivity.
  - intros text s. unfold text_to_speech.
    rewrite (unknown_language_code _ Hunknown), (unknown_voice _ Hunknown).
    reflexivity.
  - intros audio s. unfold speech_to_text.
    rewrite (unknown_language_code _ Hunknown). reflexivity.
Qed.

Lemma speech_adapters_unknown_language_witness :
  text_to_speech Sample.healthy (lit "Jai Shri Ram") (lit "Sanskrit") initial
  = text_to_speech Sample.healthy (lit "Jai Shri Ram") (lit "English") initial.
Proof.
  refine (proj1 (proj2 (speech_adapters_unknown_language Sample.healthy (lit "Sanskrit") _))
            _ _).
  vm_compute. intros Hin.
  repeat (apply elem_of_cons in Hin as [Hin|Hin]; [discriminate Hin|]).
  now apply elem_of_nil in Hin.
Defined.

(** X14. What [text_to_speech] returns, case by case: the service's
    exception text when the request raises, an IndexError text when the
    answer holds no audio, the decoder's exception text when the first
    audio does not decode, and otherwise the decoded bytes of the first
    audio with error None; later audios are never looked at. *)
Theorem text_to_speech_outcomes E (text language : pystr) s :
  let answer :=
    tts_convert E (trace s) (tts_text text) (dict_get LANGUAGE_CODES language en_IN)
      (lit "bulbul:v3") (dict_get TTS_VOICES language (lit "shubh")) in
  let failed msg :=
    Ok {| SynthesisResult.audio_bytes := None; SynthesisResult.error := Some msg |} in
  (forall e, answer = Raise e ->
             (text_to_speech E text language s).1 = failed (str_exn e))
  /\ (answer = Ok [] ->
      (text_to_speech E text language s).1 = failed (lit "list index out of range"))
  /\ (forall first others e,
        answer = Ok (first :: others) -> b64decode E first = Raise e ->
        (text_to_speech E text language s).1 = failed (str_exn e))
  /\ (forall first others audio,
        answer = Ok (first :: others) -> b64decode E first = Ok audio ->
        (text_to_speech E text language s).1
        = Ok {| SynthesisResult.audio_bytes := Some audio;
                SynthesisResult.error := None |}).
Proof.
  intros answer failed. subst answer failed.
  unfold text_to_speech, try_except, mbind, M_bind, perform, lift.
  repeat split.
  - intros e ->. reflexivity.
  - intros ->. reflexivity.
  - intros first others e -> ->. reflexivity.
  - intros first others audio -> ->. reflexivity.
Qed.

Lemma text_to_speech_outcomes_witness :
  (text_to_speech Demo.busy (lit "Jai Shri Ram") (lit "Hindi") initial).1
  = Ok {| SynthesisResult.audio_bytes := None;
          SynthesisResult.error := Some (lit "list index out of range") |}.
Proof.
  refine (proj1 (proj2 (text_to_speech_outcomes Demo.busy (lit "Jai Shri Ram")
                          (lit "Hindi") initial)) _).
  reflexivity.
Defined.

(** X15. Cutting a text for synthesis never alters its first 2490
    characters, and cutting twice is cutting once. *)
Theorem tts_text_prefix (text : pystr) :
  take 2490 (tts_text text) = take 2490 text
  /\ tts_text (tts_text text) = tts_text text.
Proof.
  destruct (Z.le_gt_cases (len text) 2500) as [Hshort|Hlong].
  - now rewrite !(tts_text_short _ Hshort).
  - split.
    + rewrite (tts_text_long _ Hlong). unfold slice_to.
      replace (Z.to_nat 2490) with 2490%nat by lia.
      rewrite take_app_le by (rewrite length_take; unfold len in Hlong; lia).
      apply take_idemp.
    + apply tts_text_short.
      rewrite (tts_text_long _ Hlong), (len_truncated _ Hlong). lia.
Qed.

(** ** Further properties: the orchestrator *)





Lemma ask_try_language E query language language' lang_code s :
  ask_try E query language' lang_code s
  = match ask_try E query language lang_code s with
    | (Ok r, s') => (Ok (with_language language' r), s')
    | (Raise e, s') => (Raise e, s')
    end.
Proof.
  unfold ask_try, mbind, M_bind.
  destruct (query_to_english E query lang_code s) as [[q_en|e] s1]; [|reflexivity].
  destruct (retrieve_passages E q_en 3 s1) as [[ps|e] s2]; [|reflexivity].
  destruct (generate_answer E q_en ps s2) as [[answer_en|e] s3]; [|reflexivity].
  destruct (answer_to_user E answer_en lang_code s3) as [[ans|e] s4]; reflexivity.
Qed.

(** X17. A language name that is not in the table is served exactly as
    English is: [ask] makes the same calls and returns the same dict, but
    for ["language"], which holds the name as given. *)
Theorem ask_unknown_language E (query language : pystr) s :
  language ∉ display_names ->
  exists r s',
    ask E query (lit "English") s = (Ok r, s')
    /\ ask E query language s = (Ok (with_language language r), s').
Proof.
  intros Hunknown. unfold ask.
  rewrite (unknown_language_code _ Hunknown).
  change (dict_get LANGUAGE_CODES (lit "English") en_IN) with en_IN.
  unfold try_except.
  rewrite (ask_try_language E query (lit "English") language en_IN s).
  destruct (ask_try E query (lit "English") en_IN s) as [[r|e] s'].
  - now exists r, s'.
  - rewrite !ask_except_failure. now eexists _, s'.
Qed.

Lemma ask_unknown_language_witness :
  exists r s',
    ask Sample.generation_down Sample.hanuman (lit "English") initial = (Ok r, s')
    /\ ask Sample.generation_down Sample.hanuman (lit "Sanskrit") initial
       = (Ok (with_language (lit "Sanskrit") r), s').
Proof.
  apply ask_unknown_language.
  vm_compute. intros Hin.
  repeat (apply elem_of_cons in Hin as [Hin|Hin]; [discriminate Hin|]).
  now apply elem_of_nil in Hin.
Defined.

(** ** Further properties: the loader *)

(** X18. When the passages file is missing, [seed] prints one error line
    and returns: no client is made and the store is not touched. *)
Theorem seed_missing_file E t :
  path_exists E t DATA_FILE = false ->
  seed E t
  = (Ok (), t ++ [PathExists DATA_FILE;
                  Print (lit "ERROR: data/passages.json not found. "
                         ++ lit "Make sure you're in the project root.")]).
Proof.
  intros Hmissing. unfold seed, mbind, Seeding_bind, say, seed_do.
  rewrite Hmissing. cbn [negb]. rewrite <- app_assoc. reflexivity.
Qed.

Lemma seed_missing_file_witness :
  seed (Demo.seeding false PNone []) []
  = (Ok (), [PathExists DATA_FILE;
             Print (lit "ERROR: data/passages.json not found. "
                    ++ lit "Make sure you're in the project root.")]).
Proof. apply (seed_missing_file (Demo.seeding false PNone []) []). reflexivity. Defined.

Lemma join_items_strings (parts : list pystr) :
  forall i, join_items i (PStr <$> parts) = Ok parts.
Proof.
  induction parts as [|s parts IH]; intros i; cbn; [reflexivity|].
  now rewrite IH.
Qed.

Lemma seed_metadata_describes p r :
  describes p r -> seed_metadata p = Ok (metadata_of r).
Proof.
  intros (d & -> & Hid & Htext & Hkanda & Htopic & Hchars).
  unfold seed_metadata, mbind, result_bind. cbn [getitem].
  rewrite Hkanda, Hchars, Htopic, Hid. cbn [py_join py_iter].
  unfold mbind, result_bind. now rewrite join_items_strings.
Qed.

Lemma comprehension_Forall2 {A B C} (R : A -> C -> Prop) (f : A -> result B)
    (g : C -> B) items rs :
  (forall p r, R p r -> f p = Ok (g r)) ->
  Forall2 R items rs -> comprehension f items = Ok (g <$> rs).
Proof.
  intros Hf. induction 1 as [|p r items rs Hpr _ IH]; cbn; [reflexivity|].
  unfold mbind, result_bind. now rewrite (Hf _ _ Hpr), IH.
Qed.

(** X19. For a file whose records each hold id, text, kanda, topic and a
    list of character names, the loader hands the store one document, one
    metadata dict and one id per record, in file order; the metadata keeps
    kanda, topic and id and holds the character names joined by [", "]. *)
Theorem seed_add_args_described (ps : list pyval) (recs : list seed_record) :
  Forall2 describes ps recs ->
  seed_add_args (PList ps)
  = Ok (r_text <$> recs, metadata_of <$> recs, r_id <$> recs)
  /\ length (metadata_of <$> recs) = length ps.
Proof.
  intros Hrecs. split.
  - unfold seed_add_args, mbind, result_bind. cbn [py_iter].
    rewrite (comprehension_Forall2 describes _ r_text ps recs); [|
      intros p r (d & -> & _ & Htext & _); cbn [getitem]; now rewrite Htext|exact Hrecs].
    rewrite (comprehension_Forall2 describes _ metadata_of ps recs
               seed_metadata_describes Hrecs).
    rewrite (comprehension_Forall2 describes _ r_id ps recs); [reflexivity|
      intros p r (d & -> & Hid & _); cbn [getitem]; now rewrite Hid|exact Hrecs].
  - rewrite length_fmap. symmetry. now apply Forall2_length with (P := describes).
Qed.

Lemma seed_add_args_described_witness :
  seed_add_args (PList [Demo.record_json Demo.hanuman_record])
  = Ok ([PStr (lit "Hanuman leapt across the ocean.")],
        [PDict [(lit "kanda", PStr (lit "Sundara Kanda"));
                (lit "characters", PStr (lit "Hanuman, Sita"));
                (lit "topic", PStr (lit "Hanuman"));
                (lit "id", PStr (lit "sundara_001"))]],
        [PStr (lit "sundara_001")]).
Proof.
  refine (proj1 (seed_add_args_described [Demo.record_json Demo.hanuman_record]
                   [Demo.hanuman_record] _)).
  repeat constructor. eexists. repeat split; reflexivity.
Defined.

Lemma print_docs_strings E (found : list pystr) :
  forall t,
    print_docs E (PStr <$> found) t
    = (Ok (), t ++ ((fun doc => Print (lit "  " ++ arrow ++ lit " " ++ take 100 doc
                                       ++ lit "...")) <$> found)).
Proof.
  induction found as [|doc found IH]; intros t; cbn [print_docs fmap list_fmap].
  - now rewrite app_nil_r.
  - unfold mbind, Seeding_bind, seed_lift, say, seed_do. cbn [py_slice_to py_str].
    rewrite IH, <- app_assoc. reflexivity.
Qed.

Lemma seed_reaches_create E passages existing results n t :
  seeding_succeeds E passages existing results ->
  py_len passages = Ok n ->
  forall (rest : pyval -> Seeding unit),
    (found ← seed_do (PathExists DATA_FILE) (fun t => Ok (path_exists E t DATA_FILE));
     if negb found then
       say (lit "ERROR: " ++ DATA_FILE
            ++ lit " not found. Make sure you're in the project root.")
     else
       file ← seed_do (LoadJson DATA_FILE) (fun t => load_json E t DATA_FILE);
       n ← seed_lift (py_len file);
       say (lit "Loaded " ++ str_int n ++ lit " passages from " ++ DATA_FILE);;
       seed_do (PersistentClient DB_PATH) (fun t => persistent_client E t DB_PATH);;
       existing ← seed_do ListCollections (list_collections E);
       (if decide (COLLECTION ∈ existing) then
          seed_do (DeleteCollection COLLECTION)
                  (fun t => delete_collection E t COLLECTION);;
          say (lit "Deleted existing collection: " ++ COLLECTION)
        else mret ());;
       let metadata := PDict [(lit "hnsw:space", PStr (lit "cosine"))] in
       seed_do (CreateCollection COLLECTION metadata)
               (fun t => create_collection E t COLLECTION metadata);;
       say (lit "Created collection: " ++ COLLECTION);;
       rest file) t
    = rest passages (t ++ seed_prelude n existing).
Proof.
  intros (Hthere & Hload & Hclient & Hlist & Hdelete & Hcreate & _) Hlen rest.
  unfold mbind, Seeding_bind, say, seed_do, seed_lift, mret, Seeding_ret.
  rewrite Hthere. cbn [negb]. rewrite Hload, Hlen, Hclient, Hlist.
  unfold seed_prelude.
  destruct (decide (COLLECTION ∈ existing)).
  - rewrite Hdelete, Hcreate. f_equal. rewrite <- !app_assoc. reflexivity.
  - rewrite Hcreate. f_equal. rewrite <- !app_assoc. reflexivity.
Qed.

Lemma seed_after_create E passages existing results n t :
  seeding_succeeds E passages existing results ->
  py_len passages = Ok n ->
  seed E t
  = (args ← seed_lift (seed_add_args passages);
     let '(documents, metadatas, ids) := args in
     seed_do (Add documents metadatas ids)
             (fun t => collection_add E t documents metadatas ids);;
     n' ← seed_lift (py_len passages);
     say (nl ++ lit "Successfully seeded " ++ str_int n' ++ lit " passages into ChromaDB!");;
     say (lit "   Database saved at: " ++ DB_PATH);;
     say (nl ++ lit "You can now run the app with: streamlit run app.py");;
     say (nl ++ box_rule ++ lit " Sanity check query: 'Who is Hanuman?' " ++ box_rule);;
     let question := [PStr (lit "Who is Hanuman?")] in
     results ← seed_do (SanityQuery question 2) (fun t => sanity_query E t question 2);
     docs ← seed_lift (documents ← getitem results "documents";
                       first ← getitem_at documents 0;
                       py_iter first);
     print_docs E docs) (t ++ seed_prelude n existing).
Proof.
  intros Hok Hlen. unfold seed.
  exact (seed_reaches_create E passages existing results n t Hok Hlen _).
Qed.

(** X20. When the file is there and every call succeeds, [seed] makes its
    calls in this order: it reads the file, makes the client, lists the
    collections, deletes the collection if and only if it is listed,
    creates it with cosine distance, adds the documents, metadata and ids
    built from the file in one call, and last runs the sanity query for 2
    results, printing the first 100 characters of each document found. *)
Theorem seed_success E passages existing results n documents metadatas ids
    more (found : list pystr) t :
  seeding_succeeds E passages existing results ->
  py_len passages = Ok n ->
  seed_add_args passages = Ok (documents, metadatas, ids) ->
  getitem results "documents" = Ok (PList (PList (PStr <$> found) :: more)) ->
  seed E t
  = (Ok (), t ++ seed_prelude n existing
              ++ seed_finale n documents metadatas ids found).
Proof.
  intros Hok Hlen Hargs Hfound.
  rewrite (seed_after_create E passages existing results n t Hok Hlen).
  destruct Hok as (_ & _ & _ & _ & _ & _ & Hadd & Hquery).
  unfold mbind at 1 2 3 4 5 6 7 8, Seeding_bind, say, seed_do, seed_lift.
  rewrite Hargs, Hadd, Hlen, Hquery.
  unfold mbind at 1, Seeding_bind. unfold mbind, result_bind.
  rewrite Hfound. cbn [getitem_at lookup list_lookup py_iter].
  rewrite print_docs_strings. unfold seed_finale.
  f_equal. rewrite <- !app_assoc. reflexivity.
Qed.

Lemma seed_success_witness :
  seed (Demo.seeding true (PList [Demo.record_json Demo.hanuman_record])
          [lit "ramayana_passages"]) []
  = (Ok (),
     seed_prelude 1 [lit "ramayana_passages"]
     ++ seed_finale 1 [PStr (lit "Hanuman leapt across the ocean.")]
          [metadata_of Demo.hanuman_record] [PStr (lit "sundara_001")]
          [lit "Hanuman leapt across the ocean."]).
Proof.
  refine (seed_success
            (Demo.seeding true (PList [Demo.record_json Demo.hanuman_record])
               [lit "ramayana_passages"])
            (PList [Demo.record_json Demo.hanuman_record]) [lit "ramayana_passages"]
            (PDict [(lit "documents",
                     PList [PList [PStr (lit "Hanuman leapt across the ocean.")]])])
            1 _ _ _ [] [lit "Hanuman leapt across the ocean."] [] _ eq_refl _ eq_refl).
  - repeat split.
  - vm_compute. reflexivity.
Defined.

(** X21. When the arguments of [collection.add] cannot be built (a record
    without one of its keys, a character that is not a string), [seed]
    raises only after it has deleted the old collection and created the
    new one: the store is left with an empty collection and nothing is
    added. *)
Theorem seed_bad_record E passages existing results n e t :
  seeding_succeeds E passages existing results ->
  py_len passages = Ok n ->
  seed_add_args passages = Raise e ->
  seed E t = (Raise e, t ++ seed_prelude n existing).
Proof.
  intros Hok Hlen Hargs.
  rewrite (seed_after_create E passages existing results n t Hok Hlen).
  unfold mbind at 1, Seeding_bind, seed_lift. now rewrite Hargs.
Qed.

Lemma seed_bad_record_witness :
  seed (Demo.seeding true (PList [PDict [(lit "text", PStr (lit "Rama"))]])
          [lit "ramayana_passages"]) []
  = (Raise (Exception (lit "'kanda'")),
     [PathExists DATA_FILE;
      LoadJson DATA_FILE;
      Print (lit "Loaded 1 passages from data/passages.json");
      PersistentClient DB_PATH;
      ListCollections;
      DeleteCollection COLLECTION;
      Print (lit "Deleted existing collection: ramayana_passages");
      CreateCollection COLLECTION (PDict [(lit "hnsw:space", PStr (lit "cosine"))]);
      Print (lit "Created collection: ramayana_passages")]).
Proof.
  refine (seed_bad_record
            (Demo.seeding true (PList [PDict [(lit "text", PStr (lit "Rama"))]])
               [lit "ramayana_passages"])
            (PList [PDict [(lit "text", PStr (lit "Rama"))]]) [lit "ramayana_passages"]
            (PDict [(lit "documents",
                     PList [PList [PStr (lit "Hanuman leapt across the ocean.")]])])
            1 _ [] _ eq_refl _).
  - repeat split.
  - vm_compute. reflexivity.
Defined.

Lemma retrieve_passages_zip E query_en n s c s1 results docs more_docs metas more_metas :
  get_collection E s = (Ok c, s1) ->
  collection_query E (trace s1) c [query_en] n = Ok results ->
  getitem results "documents" = Ok (PList (PList docs :: more_docs)) ->
  getitem results "metadatas" = Ok (PList (PList metas :: more_metas)) ->
  Forall is_dict metas ->
  (length docs <= length metas)%nat ->
  (retrieve_passages E query_en n s).1 = Ok (zip_with passage_of docs metas).
Proof.
  intros Hc Hq Hd Hm Hdict Hlen.
  unfold retrieve_passages. rewrite (bind_ok _ _ _ _ _ Hc).
  unfold mbind at 1, M_bind, perform, lift. rewrite Hq. cbn [fst].
  unfold mbind, result_bind. rewrite Hd. cbn [getitem_at lookup list_lookup py_iter].
  rewrite (collect_passages_zip results _ metas [] docs Hm eq_refl Hdict 0 []
             ltac:(lia)).
  now rewrite drop_0, app_nil_r.
Qed.

Lemma passage_of_metadata r :
  passage_of (r_text r) (metadata_of r) = passage_of_record r.
Proof. reflexivity. Qed.

Lemma zip_seeded (recs : list seed_record) :
  zip_with passage_of (r_text <$> recs) (metadata_of <$> recs)
  = passage_of_record <$> recs.
Proof.
  induction recs as [|r recs IH]; [reflexivity|].
  cbn [fmap list_fmap zip_with]. rewrite passage_of_metadata. f_equal. exact IH.
Qed.

(** X22. What [seed] stores is what [retrieve_passages] reads: when the
    store answers a query with documents and metadata as the loader wrote
    them, each passage returned has the record's text, kanda and topic, and
    in [characters] the record's character names joined by [", "]; no
    default value is used. *)
Theorem seeded_passages_read_back E query_en n s c s1 results
    (recs : list seed_record) more_docs more_metas :
  get_collection E s = (Ok c, s1) ->
  collection_query E (trace s1) c [query_en] n = Ok results ->
  getitem results "documents" = Ok (PList (PList (r_text <$> recs) :: more_docs)) ->
  getitem results "metadatas" = Ok (PList (PList (metadata_of <$> recs) :: more_metas)) ->
  (retrieve_passages E query_en n s).1 = Ok (passage_of_record <$> recs).
Proof.
  intros Hc Hq Hd Hm.
  rewrite (retrieve_passages_zip E query_en n s c s1 results _ _ _ _ Hc Hq Hd Hm).
  - f_equal. apply zip_seeded.
  - apply Forall_fmap, Forall_forall. intros r _. now eexists.
  - now rewrite !length_fmap.
Qed.

Lemma seeded_passages_read_back_witness :
  (retrieve_passages Demo.seeded_store (PStr Sample.hanuman) 3 initial).1
  = Ok [{| p_text := PStr (lit "Hanuman leapt across the ocean.");
           kanda := PStr (lit "Sundara Kanda");
           topic := PStr (lit "Hanuman");
           characters := PStr (lit "Hanuman, Sita") |}].
Proof.
  exact (seeded_passages_read_back Demo.seeded_store (PStr Sample.hanuman) 3 initial
           1%N _ _ [Demo.hanuman_record] [] [] eq_refl eq_refl eq_refl eq_refl).
Defined.

(** ** Further properties: the question form *)

Lemma ask_language_of E (query language : pystr) s r s' :
  ask E query language s = (Ok r, s') -> PipelineResult.language r = language.
Proof.
  destruct (ask_cases E query language s)
    as [(ans & ps & q_en & s1 & _ & Hask)|(e & s1 & _ & Hask)];
    rewrite Hask; now intros [= <- _].
Qed.

(** X23. A form that was not submitted, or was submitted with nothing but
    whitespace, makes no call to any service and leaves the chat history as
    it is; the blank submission is answered with a warning. *)
Theorem chat_form_blank E (submitted : bool) (user_query language : pystr)
    (chat_history : list turn) s :
  submitted = false \/ Forall (fun c => isspace c = true) user_query ->
  exists shown,
    chat_form_submit E submitted user_query language chat_history s
    = (Ok (chat_history, shown), s)
    /\ (submitted = true ->
        shown = Some (StWarning (lit "Please enter a question first."))).
Proof.
  unfold chat_form_submit. intros [->|Hblank].
  - now eexists.
  - unfold strip. rewrite (lstrip_blank _ Hblank). cbn [reverse lstrip nonempty].
    rewrite andb_false_r. destruct submitted; now eexists.
Qed.

Lemma chat_form_blank_witness :
  chat_form_submit Sample.healthy true (lit "   ") (lit "Hindi") [] initial
  = (Ok ([], Some (StWarning (lit "Please enter a question first."))), initial).
Proof.
  destruct (chat_form_blank Sample.healthy true (lit "   ") (lit "Hindi") [] initial)
    as (shown & Hrun & Hshown).
  - right. repeat constructor.
  - now rewrite Hrun, (Hshown eq_refl).
Defined.

(** X24. A submitted question reaches [ask] stripped of the whitespace
    around it, and the history only ever grows at its end: when [ask]
    reports no error, one turn is appended that holds the stripped
    question and the answer, passages and language of the result, and the
    page reruns; when [ask] reports an error with some text, the history is
    left as it is and the text is shown after ["Error: "]. *)
Theorem chat_form_question E (user_query language : pystr)
    (chat_history : list turn) s r s' :
  nonempty (strip user_query) = true ->
  ask E (strip user_query) language s = (Ok r, s') ->
  (PipelineResult.error r = None ->
   chat_form_submit E true user_query language chat_history s
   = (Ok (chat_history
            ++ [{| Turn.query := strip user_query;
                   Turn.answer := PipelineResult.answer r;
                   Turn.passages := PipelineResult.passages r;
                   Turn.language := language |}],
          Some StRerun), s'))
  /\ (forall msg,
        PipelineResult.error r = Some msg -> nonempty msg = true ->
        chat_form_submit E true user_query language chat_history s
        = (Ok (chat_history, Some (StError (warning_sign ++ lit " Error: " ++ msg))), s')).
Proof.
  intros Hquery Hask. unfold chat_form_submit. rewrite Hquery. cbn [andb].
  rewrite (bind_ok _ _ _ _ _ Hask), (ask_language_of E _ _ _ _ _ Hask).
  split.
  - intros ->. reflexivity.
  - intros msg -> Hmsg. cbn [truthy]. now rewrite Hmsg.
Qed.

Lemma chat_form_question_witness :
  exists s',
    chat_form_submit Sample.healthy true (lit "  Who is Hanuman? ") (lit "English") []
      initial
    = (Ok ([{| Turn.query := lit "Who is Hanuman?";
               Turn.answer := PStr (lit "Hanuman is the son of Vayu.");
               Turn.passages :=
                 [passage_of (PStr (lit "Hanuman leapt across the ocean."))
                    (PDict [(lit "kanda", PStr (lit "Sundara Kanda"));
                            (lit "topic", PStr (lit "Hanuman"))])];
               Turn.language := lit "English" |}],
           Some StRerun), s').
Proof.
  exists (ask Sample.healthy Sample.hanuman (lit "English") initial).2.
  refine (proj1 (chat_form_question Sample.healthy (lit "  Who is Hanuman? ")
                   (lit "English") [] initial
                   (success (PStr (lit "Hanuman is the son of Vayu."))
                      [passage_of (PStr (lit "Hanuman leapt across the ocean."))
                         (PDict [(lit "kanda", PStr (lit "Sundara Kanda"));
                                 (lit "topic", PStr (lit "Hanuman"))])]
                      (lit "English") (PStr Sample.hanuman))
                   _ _ _) _).
  - vm_compute. reflexivity.
  - vm_compute. reflexivity.
  - reflexivity.
Defined.

(** X25. The form tells failure from success by the truth value of
    ["error"], so a failure without text passes for a success: when a stage
    of [ask] raises an exception whose text is empty, no error is shown and
    a turn is appended whose answer is None. *)
Theorem chat_form_silent_failure E (user_query language : pystr)
    (chat_history : list turn) s e s_fail :
  nonempty (strip user_query) = true ->
  stage_fails E (strip user_query) (dict_get LANGUAGE_CODES language en_IN) s e s_fail ->
  error_message e = [] ->
  chat_form_submit E true user_query language chat_history s
  = (Ok (chat_history
           ++ [{| Turn.query := strip user_query;
                  Turn.answer := PNone;
                  Turn.passages := [];
                  Turn.language := language |}],
         Some StRerun), s_fail).
Proof.
  intros Hquery Hfails Hsilent.
  apply stage_fails_ask_try with (language := language) in Hfails.
  assert (Hask : ask E (strip user_query) language s
                 = (Ok (failure language []), s_fail)).
  { unfold ask. erewrite try_except_raise by exact Hfails.
    now rewrite ask_except_failure, Hsilent. }
  unfold chat_form_submit. rewrite Hquery. cbn [andb].
  now rewrite (bind_ok _ _ _ _ _ Hask).
Qed.

Lemma chat_form_silent_failure_witness :
  exists s_fail,
    chat_form_submit Demo.silent_store true Sample.hanuman (lit "English") [] initial
    = (Ok ([{| Turn.query := Sample.hanuman;
               Turn.answer := PNone;
               Turn.passages := [];
               Turn.language := lit "English" |}],
           Some StRerun), s_fail).
Proof.
  exists (retrieve_passages Demo.silent_store (PStr Sample.hanuman) 3 initial).2.
  refine (chat_form_silent_failure Demo.silent_store Sample.hanuman (lit "English") []
            initial (Exception []) _ _ _ _).
  - vm_compute. reflexivity.
  - eapply retrieval_fails; vm_compute; reflexivity.
  - reflexivity.
Defined.

(** ** Further properties: the store handle *)

Section KeepsStore.

Context {A B : Type} (c : collection).

Lemma keeps_store_ret (a : A) : keeps_store c (mret a).
Proof.
  intros s Hs. split; [exact Hs|]. exists []. split; [now rewrite app_nil_r|constructor].
Qed.

Lemma keeps_store_lift (r : result A) : keeps_store c (lift r).
Proof.
  intros s Hs. split; [exact Hs|]. exists []. split; [now rewrite app_nil_r|constructor].
Qed.

Lemma keeps_store_perform k (answer : list call -> result A) :
  ¬ opens_store k -> keeps_store c (perform k answer).
Proof.
  intros Hk s Hs. split; [exact Hs|]. exists [k]. split; [reflexivity|].
  now repeat constructor.
Qed.

Lemma keeps_store_bind (m : M A) (f : A -> M B) :
  keeps_store c m -> (forall a, keeps_store c (f a)) -> keeps_store c (m ≫= f).
Proof.
  intros Hm Hf s Hs. unfold mbind, M_bind.
  destruct (Hm s Hs) as (Hs1 & calls & Htrace & Hcalls).
  destruct (m s) as [[a|e] s1]; cbn [snd] in *.
  - destruct (Hf a s1 Hs1) as (Hs2 & calls' & Htrace' & Hcalls').
    split; [exact Hs2|]. exists (calls ++ calls'). split.
    + now rewrite Htrace', Htrace, app_assoc.
    + now apply Forall_app.
  - split; [exact Hs1|]. now exists calls.
Qed.

Lemma keeps_store_try_except (body : M A) handler :
  keeps_store c body -> (forall e, keeps_store c (handler e)) ->
  keeps_store c (try_except body handler).
Proof.
  intros Hm Hh s Hs. unfold try_except.
  destruct (Hm s Hs) as (Hs1 & calls & Htrace & Hcalls).
  destruct (body s) as [[a|e] s1]; cbn [snd] in *.
  - split; [exact Hs1|]. now exists calls.
  - destruct (Hh e s1 Hs1) as (Hs2 & calls' & Htrace' & Hcalls').
    split; [exact Hs2|]. exists (calls ++ calls'). split.
    + now rewrite Htrace', Htrace, app_assoc.
    + now apply Forall_app.
Qed.

End KeepsStore.

Lemma post_keeps_store E c url headers body : keeps_store c (post E url headers body).
Proof. apply keeps_store_perform. intros (path & name & H). discriminate. Qed.

Lemma translate_text_keeps_store E c text source_lang target_lang :
  keeps_store c (translate_text E text source_lang target_lang).
Proof.
  unfold translate_text.
  destruct (decide (source_lang = target_lang)); [apply keeps_store_ret|].
  apply keeps_store_bind; [apply post_keeps_store|intros r].
  apply keeps_store_bind; [apply keeps_store_lift|intros _].
  apply keeps_store_bind; [apply keeps_store_lift|intros body].
  apply keeps_store_lift.
Qed.

Lemma retrieve_passages_keeps_store E c query_en n :
  keeps_store c (retrieve_passages E query_en n).
Proof.
  unfold retrieve_passages.
  apply keeps_store_bind.
  - intros s Hs. unfold get_collection. rewrite Hs. cbn [snd].
    split; [exact Hs|]. exists []. split; [now rewrite app_nil_r|constructor].
  - intros c'. apply keeps_store_bind; [|intros results; apply keeps_store_lift].
    apply keeps_store_perform. intros (path & name & H). discriminate.
Qed.

Lemma generate_answer_keeps_store E c query_en ps :
  keeps_store c (generate_answer E query_en ps).
Proof.
  unfold generate_answer.
  apply keeps_store_bind; [apply post_keeps_store|intros r].
  apply keeps_store_bind; [apply keeps_store_lift|intros _]. apply keeps_store_lift.
Qed.

(** X26. Once the store handle is set, every request keeps it and none
    opens the store again: [ask] leaves [_collection] as it found it and
    makes no call to open the store, whether it succeeds or fails. *)
Theorem ask_keeps_store E (query language : pystr) c s :
  _collection s = Some c ->
  _collection (ask E query language s).2 = Some c
  /\ exists calls,
      trace (ask E query language s).2 = trace s ++ calls
      /\ Forall (fun k => ¬ opens_store k) calls.
Proof.
  revert s. change (keeps_store c (ask E query language)).
  unfold ask. apply keeps_store_try_except.
  - unfold ask_try, query_to_english, answer_to_user.
    apply keeps_store_bind.
    { destruct (decide _); [apply translate_text_keeps_store|apply keeps_store_ret]. }
    intros q_en. apply keeps_store_bind; [apply retrieve_passages_keeps_store|intros ps].
    apply keeps_store_bind; [apply generate_answer_keeps_store|intros answer_en].
    apply keeps_store_bind; [|intros ans; apply keeps_store_ret].
    destruct (decide _); [apply translate_text_keeps_store|apply keeps_store_ret].
  - intros [m r|m]; apply keeps_store_ret.
Qed.

Lemma ask_keeps_store_witness :
  let first := (ask Sample.healthy Sample.hanuman (lit "English") initial).2 in
  let second := (ask Sample.generation_down Sample.ram_kaun_hai (lit "Hindi") first).2 in
  _collection second = Some 1%N
  /\ exists calls,
      trace second = trace first ++ calls /\ Forall (fun k => ¬ opens_store k) calls.
Proof.
  intros first second.
  apply (ask_keeps_store Sample.generation_down Sample.ram_kaun_hai (lit "Hindi") 1%N first).
  reflexivity.
Defined.
